(** * shade.task_manager: tasks, their completion protocol and the manager

    A shallow embedding of [shade/task_manager.py].  Python objects are
    explicit values, the mutable task object is a record that every method
    takes and gives back, and the side effects of a method (field writes and
    log lines) are listed in program order so that statements about "stored
    before the signal" can be made. *)

From Stdlib Require Import ZArith Lia.
From stdpp Require Import base decidable option list gmap strings.

Local Open Scope string_scope.
Local Open Scope list_scope.

Set Warnings "-register-all".

(** ** Python values and classes *)

(** The classes the result classifier tests for, plus user classes that
    derive from them (single inheritance). *)
Inductive pyclass :=
  | CObject | CNoneType | CBool | CInt | CFloat | CStr
  | CSet | CTuple | CList | CGenerator | CDict | CResponse
  | CUser (cname : string) (base : pyclass).

#[global] Instance pyclass_eq_dec : EqDecision pyclass.
Proof. solve_decision. Defined.

(** [issubclass c d]: [bool] derives from [int], every class from [object],
    a user class from its base. *)
Fixpoint issubclass (c d : pyclass) : bool :=
  bool_decide (c = d) ||
  match c with
  | CObject => false
  | CBool => bool_decide (d = CInt) || bool_decide (d = CObject)
  | CUser _ b => issubclass b d
  | _ => bool_decide (d = CObject)
  end.

(** Values.  A generator is a reference into the store of generators (it is
    consumed by iteration); a float is kept as mantissa and exponent, only its
    class matters here; [VObj] is an instance of a plain user class with its
    attributes; [VInst c v] is an instance of a user class [c] that derives
    from the class of [v] and carries [v]'s content; [VResponse] is a
    transport response with what [.json()] gives (a decode failure with its
    message, or the parsed body), its [.text] and its [.headers]. *)
Inductive pyval :=
  | VNone
  | VBool (b : bool)
  | VInt (n : Z)
  | VFloat (mant expo : Z)
  | VStr (s : string)
  | VSet (items : list pyval)
  | VTuple (items : list pyval)
  | VList (items : list pyval)
  | VGen (ref : nat)
  | VDict (entries : list (string * pyval))
  | VObj (cname : string) (attrs : list (string * pyval))
  | VResponse (json : string + pyval) (text : string)
              (headers : gmap string string)
  | VInst (cname : string) (payload : pyval).

Fixpoint type_of (v : pyval) : pyclass :=
  match v with
  | VNone => CNoneType
  | VBool _ => CBool
  | VInt _ => CInt
  | VFloat _ _ => CFloat
  | VStr _ => CStr
  | VSet _ => CSet
  | VTuple _ => CTuple
  | VList _ => CList
  | VGen _ => CGenerator
  | VDict _ => CDict
  | VObj c _ => CUser c CObject
  | VResponse _ _ _ => CResponse
  | VInst c p => CUser c (type_of p)
  end.

Definition isinstance (obj : pyval) (c : pyclass) : bool :=
  issubclass (type_of obj) c.

(** ** The result-shape classifier *)

Definition _is_listlike (obj : pyval) : bool :=
  isinstance obj CList || isinstance obj CGenerator.

(** [six.string_types] is the text class. *)
Definition _is_objlike (obj : pyval) : bool :=
  negb (isinstance obj CBool) &&
  negb (isinstance obj CInt) &&
  negb (isinstance obj CFloat) &&
  negb (isinstance obj CStr) &&
  negb (isinstance obj CSet) &&
  negb (isinstance obj CTuple).

(** ** Exceptions *)

(** An exception instance: the name of its class, the names of the classes
    that class derives from, its message, and its truth value [bool(e)]:
    [True] unless the class defines [__bool__] or [__len__] otherwise.  Only
    [Exception]s are modelled. *)
Record exn := mk_exn {
  exc_type : string;
  exc_bases : list string;
  exc_msg : string;
  exc_bool : bool
}.

Definition isinstance_exn (e : exn) (cls : string) : bool :=
  bool_decide (exc_type e = cls) || bool_decide (cls ∈ exc_bases e).

Definition RetriableConnectionFailure : string := "RetriableConnectionFailure".

Definition KeyError (key : string) : exn :=
  mk_exn "KeyError" ["LookupError"] key true.
Definition TypeError (msg : string) : exn := mk_exn "TypeError" [] msg true.
Definition AttributeError (msg : string) : exn :=
  mk_exn "AttributeError" [] msg true.

(** A traceback is the list of frames an exception went through. *)
Definition traceback := list string.

(** What a call gives: a value, or a raised exception with its traceback. *)
Inductive outcome :=
  | Ret (v : pyval)
  | Exc (e : exn) (tb : traceback).

Definition kwargs := list (string * pyval).

(** ** The world the work functions act on, and the trace of a run *)

(** What client code can read and change: its own state [W] and the store
    of generators, each generator with the items it has not produced yet. *)
Record world (W : Type) := mk_world {
  w_ext : W;
  w_gens : gmap nat (list pyval)
}.
Arguments mk_world {W}.
Arguments w_ext {W}.
Arguments w_gens {W}.

(** Observable events, oldest first: each entry into a task's work function
    (with the class of the task), each debug line on the client's logger and
    the two debug lines of the manager (the elapsed seconds of the second
    one, a wall-clock float, are left out). *)
Inductive event :=
  | EvMain (cls : string)
  | EvClientDebug (msg : string)
  | EvManagerRunning (mgr task_name : string)
  | EvManagerRan (mgr task_name : string).

Record state (W : Type) := mk_state {
  st_world : world W;
  st_trace : list event
}.
Arguments mk_state {W}.
Arguments st_world {W}.
Arguments st_trace {W}.

(** A Python callable taking keyword arguments. *)
Definition callable (W : Type) : Type :=
  kwargs -> world W -> outcome * world W.

(** The client handle: its callable attributes by name. *)
Record client (W : Type) := mk_client {
  client_attr : string -> option (callable W)
}.
Arguments mk_client {W}.
Arguments client_attr {W}.

(** The work reference given to the task factory: a callable (with its
    [__name__]) or the name of a method of the client. *)
Inductive work_ref (W : Type) :=
  | WCallable (fname : string) (f : callable W)
  | WMethodName (attr : string).
Arguments WCallable {W}.
Arguments WMethodName {W}.

(** The classes of task objects: a class deriving from [BaseTask], from
    [Task] or from [RequestTask] that supplies [main] (and, for a request
    task, [result_key]), and the class [RunTask] built by
    [generate_task_class]. *)
Inductive task_class (W : Type) :=
  | BaseTaskClass (cname : string)
      (main : kwargs -> client W -> world W -> outcome * world W)
  | TaskClass (cname : string)
      (main : kwargs -> client W -> world W -> outcome * world W)
  | RequestTaskClass (cname : string) (result_key : option string)
      (main : kwargs -> client W -> world W -> outcome * world W)
  | RunTask (method : work_ref W) (name : string)
      (result_filter_cb : pyval -> pyval).
Arguments BaseTaskClass {W}.
Arguments TaskClass {W}.
Arguments RequestTaskClass {W}.
Arguments RunTask {W}.

(** A task object.  [t_client] and [t_request_id] are [None] while the
    attribute does not exist ([_client] is created by [run], [_request_id]
    by [RequestTask.done]). *)
Record task (W : Type) := mk_task {
  t_class : task_class W;
  t_exception : option exn;
  t_traceback : option traceback;
  t_result : pyval;
  t_response : pyval;
  t_finished : bool;
  t_args : kwargs;
  t_name : string;
  t_client : option (client W);
  t_request_id : option (option string)
}.
Arguments mk_task {W}.
Arguments t_class {W}.
Arguments t_exception {W}.
Arguments t_traceback {W}.
Arguments t_result {W}.
Arguments t_response {W}.
Arguments t_finished {W}.
Arguments t_args {W}.
Arguments t_name {W}.
Arguments t_client {W}.
Arguments t_request_id {W}.

(** The effects of a method body, one constructor per statement kind:
    the attribute writes, [self._finished.set()] and a debug line on the
    client's logger. *)
Inductive effect (W : Type) :=
  | SetException (e : exn)
  | SetTraceback (tb : traceback)
  | SetResult (v : pyval)
  | SetResponse (v : pyval)
  | SetRequestId (rid : option string)
  | SetClient (c : client W)
  | SetFinished
  | Log (msg : string).
Arguments SetException {W}.
Arguments SetTraceback {W}.
Arguments SetResult {W}.
Arguments SetResponse {W}.
Arguments SetRequestId {W}.
Arguments SetClient {W}.
Arguments SetFinished {W}.
Arguments Log {W}.

(** The manager object.  [tm_manager] is the instance attribute [manager]:
    neither the class nor [__init__] defines it, so it is [None] unless
    somebody attached one to the instance. *)
Inductive TaskManager (W : Type) := mk_manager {
  tm_name : string;
  tm_client : client W;
  tm_result_filter_cb : pyval -> pyval;
  tm_manager : option (TaskManager W)
}.
Arguments mk_manager {W}.
Arguments tm_name {W}.
Arguments tm_client {W}.
Arguments tm_result_filter_cb {W}.
Arguments tm_manager {W}.

(** ** The operations *)

Section Model.
Context {W : Type}.

(** *** Helpers: events, attribute writes, subscripting *)

Definition emit (ev : event) (s : state W) : state W :=
  mk_state (st_world s) (st_trace s ++ [ev]).

Definition with_world (w : world W) (s : state W) : state W :=
  mk_state w (st_trace s).

(** One statement of a method body applied to the task and the state. *)
Definition perform1 (ts : task W * state W) (ef : effect W)
  : task W * state W :=
  let '(t, s) := ts in
  match ef with
  | SetException e =>
      (mk_task (t_class t) (Some e) (t_traceback t) (t_result t)
         (t_response t) (t_finished t) (t_args t) (t_name t) (t_client t)
         (t_request_id t), s)
  | SetTraceback tb =>
      (mk_task (t_class t) (t_exception t) (Some tb) (t_result t)
         (t_response t) (t_finished t) (t_args t) (t_name t) (t_client t)
         (t_request_id t), s)
  | SetResult v =>
      (mk_task (t_class t) (t_exception t) (t_traceback t) v
         (t_response t) (t_finished t) (t_args t) (t_name t) (t_client t)
         (t_request_id t), s)
  | SetResponse v =>
      (mk_task (t_class t) (t_exception t) (t_traceback t) (t_result t)
         v (t_finished t) (t_args t) (t_name t) (t_client t)
         (t_request_id t), s)
  | SetRequestId rid =>
      (mk_task (t_class t) (t_exception t) (t_traceback t) (t_result t)
         (t_response t) (t_finished t) (t_args t) (t_name t) (t_client t)
         (Some rid), s)
  | SetClient c =>
      (mk_task (t_class t) (t_exception t) (t_traceback t) (t_result t)
         (t_response t) (t_finished t) (t_args t) (t_name t) (Some c)
         (t_request_id t), s)
  | SetFinished =>
      (mk_task (t_class t) (t_exception t) (t_traceback t) (t_result t)
         (t_response t) true (t_args t) (t_name t) (t_client t)
         (t_request_id t), s)
  | Log msg => (t, emit (EvClientDebug msg) s)
  end.

Definition perform (efs : list (effect W)) (ts : task W * state W)
  : task W * state W :=
  fold_left perform1 efs ts.

Fixpoint dict_get (entries : list (string * pyval)) (key : string)
  : option pyval :=
  match entries with
  | [] => None
  | (k, v) :: rest => if bool_decide (k = key) then Some v
                      else dict_get rest key
  end.

(** [obj[key]] for a text key: a mapping looks the key up, everything else
    refuses the subscript. *)
Fixpoint getitem (obj : pyval) (key : string) : exn + pyval :=
  match obj with
  | VDict entries =>
      match dict_get entries key with
      | Some v => inr v
      | None => inl (KeyError key)
      end
  | VInst _ p => getitem p key
  | VStr _ => inl (TypeError "string indices must be integers")
  | VList _ | VTuple _ =>
      inl (TypeError "indices must be integers or slices, not str")
  | _ => inl (TypeError "object is not subscriptable")
  end.

(** Truth value of the class attribute [result_key] ([None] or a text). *)
Definition result_key_set (result_key : option string) : bool :=
  match result_key with
  | None => false
  | Some k => negb (bool_decide (k = ""))
  end.

(** *** BaseTask *)

(** [cls.__name__] and [type(self).__name__]. *)
Definition class_name (cls : task_class W) : string :=
  match cls with
  | BaseTaskClass n _ | TaskClass n _ | RequestTaskClass n _ _ => n
  | RunTask _ _ _ => "RunTask"
  end.

Definition type_name (self : task W) : string := class_name (t_class self).

Definition BaseTask_init (cls : task_class W) (kw : kwargs) : task W :=
  mk_task cls None None VNone VNone false kw (class_name cls) None None.

Definition BaseTask_done (result : pyval) : list (effect W) :=
  [SetResult result; SetFinished].

Definition BaseTask_exception (e : exn) (tb : traceback) : list (effect W) :=
  [SetException e; SetTraceback tb; SetFinished].

(** [wait]: [None] when the call blocks (the event is not set and nobody
    else runs), otherwise what it returns or raises.  [if self._exception:]
    tests the truth value of the attribute: [None] is false, an exception is
    what its [bool] gives.  [six.reraise] raises the stored exception itself
    with the stored traceback. *)
Definition BaseTask_wait (self : task W) (raw : bool) (s : state W)
  : option outcome * state W :=
  if t_finished self then
    match t_exception self with
    | Some e =>
        if exc_bool e then (Some (Exc e (default [] (t_traceback self))), s)
        else (Some (Ret (t_result self)), s)
    | None => (Some (Ret (t_result self)), s)
    end
  else (None, s).

(** *** RequestTask.done *)

Definition request_id_header : string := "x-openstack-request-id".

(** The statements from [if self.result_key:] on. *)
Definition RequestTask_narrow (result_key : option string)
    (before : list (effect W)) (result_json : pyval)
    (headers : gmap string string)
  : list (effect W) * option (exn * traceback) :=
  let rest v :=
    [SetResult v; SetRequestId (headers !! request_id_header); SetFinished] in
  if result_key_set result_key then
    match getitem result_json (default "" result_key) with
    | inr v => (before ++ rest v, None)
    | inl e => (before, Some (e, ["done"]))
    end
  else (before ++ rest result_json, None).

(** What [.json()], [.text] and [.headers] of a value give, when it is a
    response or an instance of a class deriving from the response class. *)
Fixpoint as_response (v : pyval)
  : option ((string + pyval) * string * gmap string string) :=
  match v with
  | VResponse json text headers => Some (json, text, headers)
  | VInst _ p => as_response p
  | _ => None
  end.

(** The statements [RequestTask.done] executes, in program order, and the
    exception that ends them if one is raised. *)
Definition RequestTask_done (result_key : option string) (self : task W)
    (result : pyval) : list (effect W) * option (exn * traceback) :=
  match as_response result with
  | Some (json, text, headers) =>
      match json with
      | inr result_json =>
          RequestTask_narrow result_key [SetResponse result] result_json
            headers
      | inl e =>
          match t_client self with
          | Some _ =>
              RequestTask_narrow result_key
                [SetResponse result;
                 Log ("Could not decode json in response: " ++ e);
                 Log text]
                (VStr text) headers
          | None =>
              ([SetResponse result],
               Some (AttributeError "_client", ["done"]))
          end
      end
  | None => ([SetResponse result], Some (AttributeError "json", ["done"]))
  end.

(** [self.done(result)], by the class of [self]. *)
Definition task_done (self : task W) (result : pyval)
  : list (effect W) * option (exn * traceback) :=
  match t_class self with
  | RequestTaskClass _ result_key _ => RequestTask_done result_key self result
  | _ => (BaseTask_done result, None)
  end.

(** *** The task factory *)

Definition _result_filter_cb (result : pyval) : pyval := result.

Definition generate_task_class (method : work_ref W) (name : option string)
    (result_filter_cb : pyval -> pyval) : task_class W :=
  let name :=
    match name with
    | Some n => n
    | None =>
        match method with
        | WCallable fname _ => fname
        | WMethodName attr => attr
        end
    end in
  RunTask method name result_filter_cb.

Definition RunTask_init (cls : task_class W) (kw : kwargs) : task W :=
  let self := BaseTask_init cls kw in
  match cls with
  | RunTask _ name _ =>
      mk_task cls (t_exception self) (t_traceback self) (t_result self)
        (t_response self) (t_finished self) (t_args self) name
        (t_client self) (t_request_id self)
  | _ => self
  end.

Definition RunTask_main (method : work_ref W) (self : task W)
    (c : client W) (w : world W) : outcome * world W :=
  match method with
  | WCallable _ f => f (t_args self) w
  | WMethodName attr =>
      match client_attr c attr with
      | Some meth => meth (t_args self) w
      | None => (Exc (AttributeError attr) ["main"], w)
      end
  end.

(** [self.main(client)], by the class of [self]. *)
Definition task_main (self : task W) (c : client W) (w : world W)
  : outcome * world W :=
  match t_class self with
  | BaseTaskClass _ main | TaskClass _ main | RequestTaskClass _ _ main =>
      main (t_args self) c w
  | RunTask method _ _ => RunTask_main method self c w
  end.

(** *** BaseTask.run *)

(** [self.done(self.main(client))]: the task and state it leaves, and the
    exception it raises if any. *)
Definition attempt (self : task W) (c : client W) (s : state W)
  : task W * state W * option (exn * traceback) :=
  let s := emit (EvMain (type_name self)) s in
  match task_main self c (st_world s) with
  | (Exc e tb, w) => (self, with_world w s, Some (e, tb))
  | (Ret v, w) =>
      let '(efs, raised) := task_done self v in
      (perform efs (self, with_world w s), raised)
  end.

Definition run (self : task W) (c : client W) (s : state W)
  : task W * state W :=
  let '(self, s) := perform1 (self, s) (SetClient c) in
  match attempt self c s with
  | (ts, None) => ts
  | (ts, Some (e, tb)) =>
      if isinstance_exn e RetriableConnectionFailure then
        let ts := perform1 ts
          (Log ("Connection failure for " ++ type_name self ++ ", retrying")) in
        match attempt ts.1 c ts.2 with
        | (ts, None) => ts
        | (ts, Some (e, tb)) => perform (BaseTask_exception e tb) ts
        end
      else perform (BaseTask_exception e tb) ts
  end.

(** *** Normalization on retrieval *)

(** [meta.obj_to_dict], the conversion of one object to a mapping, belongs to
    the collaborator: any function of the object and the request id. *)
Variable obj_to_dict : pyval -> option string -> pyval.

(** Iterating a list-like value: a list gives its items, a generator the
    items it has left and is exhausted afterwards. *)
Fixpoint iterate (obj : pyval) (w : world W) : option (list pyval) * world W :=
  match obj with
  | VList items => (Some items, w)
  | VGen ref =>
      (Some (default [] (w_gens w !! ref)),
       mk_world (w_ext w) (<[ref := []]> (w_gens w)))
  | VInst _ p => iterate p w
  | _ => (None, w)
  end.

(** Modelled from the spec: [meta.obj_list_to_dict] is not among the sources;
    the spec has it map each element of the sequence, in order, through the
    object-to-mapping conversion, threading the request id. *)
Definition obj_list_to_dict (obj_list : pyval) (request_id : option string)
    (w : world W) : outcome * world W :=
  match iterate obj_list w with
  | (Some items, w') =>
      (Ret (VList (map (fun o => obj_to_dict o request_id) items)), w')
  | (None, w') => (Exc (TypeError "object is not iterable") ["obj_list_to_dict"], w')
  end.

(** The three-way choice both [Task.wait] and [RequestTask.wait] end with.
    [request_id] is the attribute the two converting branches read: [None]
    when the attribute does not exist, which only those branches notice. *)
Definition normalize (result : pyval) (request_id : option (option string))
    (s : state W) : option outcome * state W :=
  if _is_listlike result then
    match request_id with
    | Some rid =>
        let '(o, w) := obj_list_to_dict result rid (st_world s) in
        (Some o, with_world w s)
    | None => (Some (Exc (AttributeError "_request_id") ["wait"]), s)
    end
  else if _is_objlike result then
    match request_id with
    | Some rid => (Some (Ret (obj_to_dict result rid)), s)
    | None => (Some (Exc (AttributeError "_request_id") ["wait"]), s)
    end
  else (Some (Ret result), s).

Definition Task_wait (self : task W) (raw : bool) (s : state W)
  : option outcome * state W :=
  match BaseTask_wait self false s with
  | (Some (Ret _), s) =>
      if raw then (Some (Ret (t_result self)), s)
      else normalize (t_result self) (Some None) s
  | blocked_or_raised => blocked_or_raised
  end.

Definition RequestTask_wait (self : task W) (raw : bool) (s : state W)
  : option outcome * state W :=
  match BaseTask_wait self false s with
  | (Some (Ret _), s) =>
      if raw then (Some (Ret (t_result self)), s)
      else normalize (t_result self) (t_request_id self) s
  | blocked_or_raised => blocked_or_raised
  end.

Definition RunTask_wait (result_filter_cb : pyval -> pyval) (self : task W)
    (raw : bool) (s : state W) : option outcome * state W :=
  match Task_wait self false s with
  | (Some (Ret _), s) =>
      if raw then (Some (Ret (t_result self)), s)
      else (Some (Ret (result_filter_cb (t_result self))), s)
  | blocked_or_raised => blocked_or_raised
  end.

(** [self.wait(raw)], by the class of [self]. *)
Definition wait (self : task W) (raw : bool) (s : state W)
  : option outcome * state W :=
  match t_class self with
  | BaseTaskClass _ _ => BaseTask_wait self raw s
  | TaskClass _ _ => Task_wait self raw s
  | RequestTaskClass _ _ _ => RequestTask_wait self raw s
  | RunTask _ _ result_filter_cb => RunTask_wait result_filter_cb self raw s
  end.

(** *** TaskManager *)

Definition TaskManager_init (c : client W) (name : string)
    (result_filter_cb : option (pyval -> pyval)) : TaskManager W :=
  mk_manager name c (default _result_filter_cb result_filter_cb) None.

Definition submit_task (self : TaskManager W) (t : task W) (raw : bool)
    (s : state W) : option outcome * task W * state W :=
  let s := emit (EvManagerRunning (tm_name self) (t_name t)) s in
  let '(t, s) := run t (tm_client self) s in
  let s := emit (EvManagerRan (tm_name self) (t_name t)) s in
  let '(o, s) := wait t raw s in
  (o, t, s).

(** [submit_function]: what the call gives, the task object it built (if it
    got that far) and the state it leaves.  The last line reads the attribute
    [manager] of [self] before it builds the task. *)
Definition submit_function (self : TaskManager W) (method : work_ref W)
    (name : option string) (result_filter_cb : option (pyval -> pyval))
    (kw : kwargs) (s : state W)
  : option outcome * option (task W) * state W :=
  let result_filter_cb :=
    default (tm_result_filter_cb self) result_filter_cb in
  let task_class := generate_task_class method name result_filter_cb in
  match tm_manager self with
  | Some manager =>
      let '(o, t, s) :=
        submit_task manager (RunTask_init task_class kw) false s in
      (o, Some t, s)
  | None =>
      (Some (Exc (AttributeError "manager") ["submit_function"]), None, s)
  end.

End Model.

(** ** Notions the statements use *)

Section Notions.
Context {W : Type}.

(** How many times a work function was entered along a trace. *)
Fixpoint main_calls (tr : list event) : nat :=
  match tr with
  | [] => 0
  | EvMain _ :: rest => S (main_calls rest)
  | _ :: rest => main_calls rest
  end.

Definition is_SetFinished (ef : effect W) : bool :=
  match ef with SetFinished => true | _ => false end.

(** In the statement list [efs] the completion signal is the last statement
    and the only signal, and every statement of [stores] comes before it. *)
Definition stored_before_signal (stores efs : list (effect W)) : Prop :=
  ∃ before, efs = before ++ [SetFinished]
    ∧ Forall (fun ef => is_SetFinished ef = false) before
    ∧ Forall (fun ef => ef ∈ before) stores.

(** The six classes [_is_objlike] tests for. *)
Definition scalar_class (d : pyclass) : bool :=
  match d with
  | CBool | CInt | CFloat | CStr | CSet | CTuple => true
  | _ => false
  end.

(** The debug lines a statement list writes. *)
Definition logs_of (efs : list (effect W)) : list event :=
  flat_map (fun ef => match ef with
                      | Log msg => [EvClientDebug msg]
                      | _ => []
                      end) efs.

(** The debug line of the retry. *)
Definition retry_line (self : task W) : event :=
  EvClientDebug ("Connection failure for " ++ type_name self ++ ", retrying").

(** Between [s] and [s'] the work function of [self] was entered once,
    respectively entered, the retry logged, and entered once more; whatever
    else was traced is not an entry into a work function. *)
Definition work_entered_once (self : task W) (s s' : state W) : Prop :=
  ∃ logs, st_trace s' = st_trace s ++ EvMain (type_name self) :: logs
    ∧ main_calls logs = 0.

Definition work_retried_once (self : task W) (s s' : state W) : Prop :=
  ∃ logs, st_trace s' =
      st_trace s ++ EvMain (type_name self) :: retry_line self
        :: EvMain (type_name self) :: logs
    ∧ main_calls logs = 0.

(** The task ended in error [e] with traceback [tb]. *)
Definition ended_in_error (t : task W) (e : exn) (tb : traceback) : Prop :=
  t_finished t = true ∧ t_exception t = Some e ∧ t_traceback t = Some tb.

(** What [self.done(v)] leaves in [t'] when it is called on [self]: either
    it raised and [run] recorded that error, or the task is finished with
    its error field untouched and, for every class but the request tasks
    (which store the decoded body instead), [v] as the stored result. *)
Definition concluded_with (self : task W) (v : pyval) (t' : task W) : Prop :=
  match task_done self v with
  | (_, Some (e, tb)) => ended_in_error t' e tb
  | (_, None) =>
      t_finished t' = true ∧ t_exception t' = t_exception self ∧
      match t_class self with
      | RequestTaskClass _ _ _ => True
      | _ => t_result t' = v
      end
  end.

(** A task as [__init__] leaves it, as far as the outcome goes. *)
Definition pending (t : task W) : Prop :=
  t_finished t = false ∧ t_exception t = None ∧ t_traceback t = None
  ∧ t_result t = VNone.

(** The retrieval of a factory task as the specification words it: the
    result filter applied to the normalized result. *)
Definition RunTask_wait_filter_after_normalization
    (obj_to_dict : pyval -> option string -> pyval)
    (result_filter_cb : pyval -> pyval) (self : task W) (s : state W)
  : option outcome * state W :=
  match normalize obj_to_dict (t_result self) (Some None) s with
  | (Some (Ret normalized), s) => (Some (Ret (result_filter_cb normalized)), s)
  | other => other
  end.

(** The outcome of the second of two consecutive [wait]s. *)
Definition wait_again (obj_to_dict : pyval -> option string -> pyval)
    (self : task W) (raw : bool) (s : state W) : option outcome :=
  (wait obj_to_dict self raw (wait obj_to_dict self raw s).2).1.

End Notions.

(** ** Sample objects *)

Module Sample.

(** A conversion in the collaborator's style: the attributes of an object
    become the entries of a mapping, with the request id merged in when
    there is one; everything else is left as it is. *)
Definition obj_to_dict (obj : pyval) (request_id : option string) : pyval :=
  let rid :=
    match request_id with
    | Some r => [("x_openstack_request_ids", VList [VStr r])]
    | None => []
    end in
  match obj with
  | VObj _ attrs => VDict (attrs ++ rid)
  | VDict entries => VDict (entries ++ rid)
  | other => other
  end.

Definition cloud : client nat := mk_client (fun _ => None).

Definition s0 : state nat := mk_state (mk_world 0 ∅) [].

Definition items : pyval :=
  VList [VObj "Item" [("id", VInt 1)]; VObj "Item" [("id", VInt 2)]].

Definition list_items : callable nat := fun _ w => (Ret items, w).

Definition list_items_task : task nat :=
  RunTask_init
    (generate_task_class (WCallable "list_items" list_items) None
       _result_filter_cb) [].

Definition manager : TaskManager nat := TaskManager_init cloud "cloud" None.

Definition ConnectFailure : exn :=
  mk_exn "ConnectFailure" ["ConnectionError"; "RetriableConnectionFailure"]
    "Unable to establish connection" true.

Definition HttpError : exn :=
  mk_exn "HttpError" ["ClientException"] "500" true.

(** Work that fails with [e] the first time it is entered and returns 7
    from then on; the client state counts the entries. *)
Definition fails_first (e : exn) : kwargs -> client nat -> world nat
    -> outcome * world nat :=
  fun _ _ w =>
    let w' := mk_world (S (w_ext w)) (w_gens w) in
    match w_ext w with
    | 0 => (Exc e ["main"], w')
    | _ => (Ret (VInt 7), w')
    end.

Definition flaky_task (e : exn) : task nat :=
  BaseTask_init (TaskClass "GetServer" (fails_first e)) [].

(** Work that fails with [e] every time it is entered. *)
Definition always_fails (e : exn) : kwargs -> client nat -> world nat
    -> outcome * world nat :=
  fun _ _ w => (Exc e ["main"], mk_world (S (w_ext w)) (w_gens w)).

(** Work that returns a fresh generator of two items. *)
Definition stream_servers : kwargs -> client nat -> world nat
    -> outcome * world nat :=
  fun _ _ w =>
    (Ret (VGen 0), mk_world (w_ext w) (<[0 := [VInt 1; VInt 2]]> (w_gens w))).

Definition stream_task : task nat :=
  BaseTask_init (TaskClass "StreamServers" stream_servers) [].

(** A request whose response body is not JSON (an empty body). *)
Definition empty_response : pyval := VResponse (inl "Expecting value") "" ∅.

Definition request_task (result_key : option string) (response : pyval)
  : task nat :=
  BaseTask_init
    (RequestTaskClass "ServerList" result_key (fun _ _ w => (Ret response, w)))
    [].

Definition servers_response (key : string) : pyval :=
  VResponse (inr (VDict [(key, VList [VStr "a"])])) "{}"
    {[ request_id_header := "req-1" ]}.

(** The factory task after [submit_task] ran it. *)
Definition listed : task nat * state nat := run list_items_task cloud s0.

(** The task whose work fails once with a retriable failure, after its
    run. *)
Definition recovered : task nat * state nat :=
  run (flaky_task ConnectFailure) cloud s0.

(** The task whose work fails once with another failure, after its run. *)
Definition failed : task nat * state nat :=
  run (flaky_task HttpError) cloud s0.

(** The task whose work returns a generator, after its run. *)
Definition streamed : task nat * state nat := run stream_task cloud s0.

(** A task of class [Task] whose work returns nothing, after its run. *)
Definition returned_nothing : task nat * state nat :=
  run (BaseTask_init (TaskClass "DeleteServer" (fun _ _ w => (Ret VNone, w)))
         []) cloud s0.

End Sample.

(** ** Further notions and samples *)

Section MoreNotions.
Context {W : Type}.

(** The task once [run] has bound the client ([self._client = client]). *)
Definition bound (t : task W) (c : client W) : task W :=
  mk_task (t_class t) (t_exception t) (t_traceback t) (t_result t)
    (t_response t) (t_finished t) (t_args t) (t_name t) (Some c)
    (t_request_id t).

(** The classes that inherit [BaseTask.done]. *)
Definition plain_done (cls : task_class W) : bool :=
  match cls with
  | RequestTaskClass _ _ _ => false
  | _ => true
  end.

(** The classes whose [wait] is not the one of [RunTask]. *)
Definition own_wait (cls : task_class W) : bool :=
  match cls with
  | RunTask _ _ _ => false
  | _ => true
  end.

(** The name a work reference has by itself: [method.__name__] for a
    callable, the text for a method name. *)
Definition work_name (method : work_ref W) : string :=
  match method with
  | WCallable fname _ => fname
  | WMethodName attr => attr
  end.

(** Whether [wait] raises: the test [if self._exception:]. *)
Definition wait_raises (t : task W) : bool :=
  match t_exception t with
  | Some e => exc_bool e
  | None => false
  end.

(** The generator a value is, directly or as an instance of a class
    deriving from the generator's. *)
Fixpoint generator_ref (v : pyval) : option nat :=
  match v with
  | VGen ref => Some ref
  | VInst _ p => generator_ref p
  | _ => None
  end.

(** The one case in which a [wait] consumes something: it does not raise,
    the raw result is not asked for, the class is one whose own [wait]
    normalizes ([Task], or [RequestTask] with its request id attribute), and
    the stored result is a generator that has items left. *)
Definition consumes_generator (t : task W) (raw : bool) (s : state W) : bool :=
  negb (wait_raises t) && negb raw &&
  match t_class t with
  | TaskClass _ _ => true
  | RequestTaskClass _ _ _ =>
      match t_request_id t with Some _ => true | None => false end
  | _ => false
  end &&
  match generator_ref (t_result t) with
  | Some ref =>
      match default [] (w_gens (st_world s) !! ref) with
      | [] => false
      | _ :: _ => true
      end
  | None => false
  end.

(** A decoded JSON body that is not a mapping. *)
Definition json_non_object (v : pyval) : bool :=
  match v with
  | VNone | VBool _ | VInt _ | VFloat _ _ | VStr _ | VList _ => true
  | _ => false
  end.

(** The built-in values, none of which has an attribute [json]. *)
Definition lacks_json (v : pyval) : bool :=
  match v with
  | VObj _ _ | VInst _ _ | VResponse _ _ _ => false
  | _ => true
  end.

End MoreNotions.

Module MoreSample.
Import Sample.

(** A client with one method, [list_items]. *)
Definition cloud_with_method : client nat :=
  mk_client (fun a => if bool_decide (a = "list_items")
                      then Some list_items else None).

Definition method_manager : TaskManager nat :=
  TaskManager_init cloud_with_method "cloud" None.

(** A filter that wraps the result. *)
Definition wrap (r : pyval) : pyval := VTuple [r].

(** A manager to which another manager was attached as [manager]. *)
Definition outer_manager : TaskManager nat :=
  mk_manager "outer" cloud wrap (Some manager).

(** A response whose body is the JSON array [["a"]], with no request id. *)
Definition array_response : pyval := VResponse (inr (VList [VStr "a"])) "[]" ∅.

(** An exception whose class defines [__len__] as 0: its instances are
    false. *)
Definition Empty : exn := mk_exn "Empty" ["Exception"] "" false.

(** A task whose work raises that exception, and the task after its run. *)
Definition empty_task : task nat :=
  BaseTask_init (TaskClass "PopQueue" (always_fails Empty)) [].

Definition emptied : task nat * state nat := run empty_task cloud s0.

(** A manager whose own client has no method, with the manager of the
    client that has [list_items] attached as [manager]. *)
Definition outer_over_method_manager : TaskManager nat :=
  mk_manager "outer" cloud wrap (Some method_manager).

(** A task whose work fails with a retriable failure every time. *)
Definition doomed_task : task nat :=
  BaseTask_init (TaskClass "GetServer" (always_fails ConnectFailure)) [].

End MoreSample.

(** * Properties *)

Section Properties.
Context {W : Type}.
Implicit Types (t self : task W) (s : state W) (c : client W).

(** ** Statement lists *)

Lemma main_calls_app (a b : list event) :
  main_calls (a ++ b) = main_calls a + main_calls b.
Proof.
  induction a as [|ev a IH]; simpl; [done|].
  destruct ev; simpl; lia.
Qed.

Lemma main_calls_logs_of (efs : list (effect W)) :
  main_calls (logs_of efs) = 0.
Proof.
  induction efs as [|ef efs IH]; simpl; [done|].
  rewrite main_calls_app, IH. by destruct ef.
Qed.

Lemma perform_cons ef efs (ts : task W * state W) :
  perform (ef :: efs) ts = perform efs (perform1 ts ef).
Proof. reflexivity. Qed.

Lemma perform_app efs1 efs2 (ts : task W * state W) :
  perform (efs1 ++ efs2) ts = perform efs2 (perform efs1 ts).
Proof. apply fold_left_app. Qed.

Lemma perform1_finished ef (ts : task W * state W) :
  t_finished (perform1 ts ef).1 = t_finished ts.1 || is_SetFinished ef.
Proof.
  destruct ts as [t s], ef; simpl; by rewrite ?orb_false_r, ?orb_true_r.
Qed.

Lemma perform_finished efs (ts : task W * state W) :
  t_finished (perform efs ts).1
  = t_finished ts.1 || existsb is_SetFinished efs.
Proof.
  revert ts. induction efs as [|ef efs IH]; intros ts.
  - simpl. by rewrite orb_false_r.
  - rewrite perform_cons, IH, perform1_finished. simpl. by rewrite orb_assoc.
Qed.

Lemma perform1_state ef (ts : task W * state W) :
  (perform1 ts ef).2
  = mk_state (st_world ts.2) (st_trace ts.2 ++ logs_of [ef]).
Proof.
  destruct ts as [t [w tr]], ef; simpl; by rewrite ?app_nil_r.
Qed.

Lemma perform_state efs (ts : task W * state W) :
  (perform efs ts).2
  = mk_state (st_world ts.2) (st_trace ts.2 ++ logs_of efs).
Proof.
  revert ts. induction efs as [|ef efs IH]; intros ts.
  - simpl. rewrite app_nil_r. by destruct ts as [t [w tr]].
  - rewrite perform_cons, IH, perform1_state. simpl.
    by rewrite app_nil_r, <- app_assoc.
Qed.

Lemma perform1_class ef (ts : task W * state W) :
  t_class (perform1 ts ef).1 = t_class ts.1.
Proof. by destruct ts as [t s], ef. Qed.

Lemma perform_class efs (ts : task W * state W) :
  t_class (perform efs ts).1 = t_class ts.1.
Proof.
  revert ts. induction efs as [|ef efs IH]; intros ts; [done|].
  by rewrite perform_cons, IH, perform1_class.
Qed.

Lemma perform_exception_ends e tb (ts : task W * state W) :
  ended_in_error (perform (BaseTask_exception e tb) ts).1 e tb.
Proof. destruct ts. by repeat split. Qed.

(** ** Subscripting and [RequestTask.done] *)

Lemma getitem_error obj key e :
  getitem obj key = inl e → e = KeyError key ∨ ∃ msg, e = TypeError msg.
Proof.
  induction obj as [| | | | | | | | |entries| | |cname payload IH]; simpl;
    intros H; try (inversion H; subst; eauto; fail).
  destruct (dict_get entries key); inversion H; subst; eauto.
Qed.

Lemma getitem_not_retriable obj key e :
  getitem obj key = inl e →
  isinstance_exn e RetriableConnectionFailure = false.
Proof.
  intros H. destruct (getitem_error _ _ _ H) as [->|[msg ->]]; reflexivity.
Qed.

Lemma RequestTask_narrow_cases rk before body headers :
  (∃ v, RequestTask_narrow (W:=W) rk before body headers =
          (before ++ [SetResult v; SetRequestId (headers !! request_id_header);
                      SetFinished], None))
  ∨ (∃ e, RequestTask_narrow (W:=W) rk before body headers
          = (before, Some (e, ["done"]))
        ∧ isinstance_exn e RetriableConnectionFailure = false).
Proof.
  unfold RequestTask_narrow. destruct (result_key_set rk); [|eauto].
  destruct (getitem body (default "" rk)) as [e|v] eqn:E; [|eauto].
  right. exists e. split; [done|]. by eapply getitem_not_retriable.
Qed.

(** What [done] does to the fields of the task, whether it returns or
    raises; an exception it raises is never the retriable kind. *)
Lemma task_done_cases self v :
  (∃ efs, task_done self v = (efs, None)
     ∧ ∀ ts : task W * state W,
         t_finished (perform efs ts).1 = true
         ∧ t_exception (perform efs ts).1 = t_exception ts.1
         ∧ t_traceback (perform efs ts).1 = t_traceback ts.1
         ∧ match t_class self with
           | RequestTaskClass _ _ _ => True
           | _ => t_result (perform efs ts).1 = v
           end)
  ∨ (∃ efs e tb, task_done self v = (efs, Some (e, tb))
       ∧ isinstance_exn e RetriableConnectionFailure = false
       ∧ ∀ ts : task W * state W,
           t_result (perform efs ts).1 = t_result ts.1
           ∧ t_exception (perform efs ts).1 = t_exception ts.1
           ∧ t_traceback (perform efs ts).1 = t_traceback ts.1).
Proof.
  unfold task_done.
  destruct (t_class self) as [n m|n m|n rk m|m n f] eqn:Hc;
    try (left; eexists; split; [reflexivity|]; intros [t s]; by simpl).
  unfold RequestTask_done.
  destruct (as_response v) as [[[json text] headers]|];
    try (right; do 3 eexists; split; [reflexivity|];
         split; [reflexivity|]; by intros []).
  assert (Hn : ∀ before body,
    (∃ efs, RequestTask_narrow (W:=W) rk before body headers = (efs, None)
       ∧ ∀ ts : task W * state W,
           t_finished (perform efs ts).1 = true
           ∧ t_exception (perform efs ts).1
             = t_exception (perform before ts).1
           ∧ t_traceback (perform efs ts).1
             = t_traceback (perform before ts).1)
    ∨ (∃ e,
         RequestTask_narrow (W:=W) rk before body headers
         = (before, Some (e, ["done"]))
         ∧ isinstance_exn e RetriableConnectionFailure = false)).
  { intros before body.
    destruct (RequestTask_narrow_cases rk before body headers)
      as [[r ->]|[e [-> He]]]; [left|right; eauto].
    eexists; split; [reflexivity|]. intros ts.
    rewrite perform_app. by destruct (perform before ts). }
  destruct json as [msg|body].
  - destruct (t_client self);
      [|right; do 3 eexists; split; [reflexivity|];
        split; [reflexivity|]; by intros []].
    destruct (Hn [SetResponse v;
                  Log ("Could not decode json in response: " ++ msg);
                  Log text] (VStr text))
      as [(efs & -> & H)|(e & -> & H)]; [left|right].
    + eexists; split; [reflexivity|]. intros ts.
      destruct (H ts) as (H1 & H2 & H3). repeat split; [done|..].
      * rewrite H2. by destruct ts.
      * rewrite H3. by destruct ts.
    + do 3 eexists; split; [reflexivity|]. split; [done|]. by intros [].
  - destruct (Hn [SetResponse v] body)
      as [(efs & -> & H)|(e & -> & H)]; [left|right].
    + eexists; split; [reflexivity|]. intros ts.
      destruct (H ts) as (H1 & H2 & H3). repeat split; [done|..].
      * rewrite H2. by destruct ts.
      * rewrite H3. by destruct ts.
    + do 3 eexists; split; [reflexivity|]. split; [done|]. by intros [].
Qed.

(** ** One attempt of [run] *)

Lemma attempt_raises self c s e tb w :
  task_main self c (st_world s) = (Exc e tb, w) →
  attempt self c s
  = ((self, mk_state w (st_trace s ++ [EvMain (type_name self)])),
     Some (e, tb)).
Proof. intros H. unfold attempt. simpl. by rewrite H. Qed.

Lemma attempt_returns self c s v w :
  task_main self c (st_world s) = (Ret v, w) →
  attempt self c s
  = (perform (task_done self v).1
       (self, mk_state w (st_trace s ++ [EvMain (type_name self)])),
     (task_done self v).2).
Proof.
  intros H. unfold attempt. simpl. rewrite H.
  by destruct (task_done self v).
Qed.

(** The fields an attempt leaves: a finished task with its error fields
    untouched, or an exception and the stored result untouched. *)
Lemma attempt_fields self c s :
  match attempt self c s with
  | (ts, None) =>
      t_finished ts.1 = true ∧ t_exception ts.1 = t_exception self
      ∧ t_traceback ts.1 = t_traceback self
  | (ts, Some _) =>
      t_result ts.1 = t_result self ∧ t_exception ts.1 = t_exception self
      ∧ t_traceback ts.1 = t_traceback self
  end.
Proof.
  destruct (task_main self c (st_world s)) as [[v|e tb] w] eqn:Hm.
  - rewrite (attempt_returns _ _ _ _ _ Hm).
    destruct (task_done_cases self v)
      as [(efs & E & Hok)|(efs & e & tb & E & _ & Hr)]; rewrite E; simpl.
    + destruct (Hok (self, mk_state w
                 (st_trace s ++ [EvMain (type_name self)])))
        as (H1 & H2 & H3 & _).
      done.
    + apply Hr.
  - by rewrite (attempt_raises _ _ _ _ _ _ Hm).
Qed.

(** The attempt that follows a work function returning [v]. *)
Lemma attempt_returns_concluded self c s v w :
  task_main self c (st_world s) = (Ret v, w) →
  ∃ ts logs,
    (attempt self c s = (ts, None)
     ∨ ∃ e tb, attempt self c s = (ts, Some (e, tb))
         ∧ isinstance_exn e RetriableConnectionFailure = false)
    ∧ st_trace ts.2 = st_trace s ++ EvMain (type_name self) :: logs
    ∧ main_calls logs = 0
    ∧ ∀ t', match attempt self c s with
            | (_, None) => t' = ts.1
            | (_, Some (e, tb)) =>
                t' = (perform (BaseTask_exception e tb) ts).1
            end → concluded_with self v t'.
Proof.
  intros H. rewrite (attempt_returns _ _ _ _ _ H).
  set (s1 := mk_state w (st_trace s ++ [EvMain (type_name self)])).
  exists (perform (task_done self v).1 (self, s1)),
         (logs_of (task_done self v).1).
  unfold concluded_with.
  destruct (task_done_cases self v)
    as [(efs & E & Hok)|(efs & e & tb & E & Hnr & _)]; rewrite E; simpl.
  - split; [by left|]. rewrite perform_state. simpl.
    rewrite <- app_assoc. split; [done|].
    split; [apply main_calls_logs_of|].
    intros t' ->. destruct (Hok (self, s1)) as (H1 & H2 & _ & H3).
    by repeat split.
  - split; [right; eauto|]. rewrite perform_state. simpl.
    rewrite <- app_assoc. split; [done|].
    split; [apply main_calls_logs_of|].
    intros t' ->. apply perform_exception_ends.
Qed.

(** ** The retry of [run] *)

(** C3. [run] enters the work function once; when that first execution
    raises the retriable connection failure it logs the retry and enters the
    work function exactly once more.  A retriable failure followed by a
    success ends as the success does; any other failure, and a failure of the
    second execution (retriable or not), is the error the task ends in. *)
Theorem run_retries_retriable_failure_once self c s :
  let self0 := (perform1 (self, s) (SetClient c)).1 in
  let t' := (run self c s).1 in
  let s' := (run self c s).2 in
  match task_main self0 c (st_world s) with
  | (Ret v, _) => work_entered_once self s s' ∧ concluded_with self0 v t'
  | (Exc e tb, w1) =>
      if isinstance_exn e RetriableConnectionFailure then
        work_retried_once self s s' ∧
        match task_main self0 c w1 with
        | (Ret v, _) => concluded_with self0 v t'
        | (Exc e2 tb2, _) => ended_in_error t' e2 tb2
        end
      else work_entered_once self s s' ∧ ended_in_error t' e tb
  end.
Proof.
  intros self0 t' s'. subst t' s'. unfold run.
  change (perform1 (self, s) (SetClient c)) with (self0, s).
  assert (Hn : type_name self0 = type_name self) by reflexivity.
  cbv zeta. cbv beta iota.
  destruct (task_main self0 c (st_world s)) as [[v|e tb] w1] eqn:Hm.
  - destruct (attempt_returns_concluded self0 c s v w1 Hm)
      as (ts & logs & Hatt & Htr & Hcalls & Hconc).
    destruct Hatt as [Ha|(e & tb & Ha & Hnr)]; rewrite Ha in *.
    + split; [|by apply Hconc]. exists logs. by rewrite <- Hn.
    + rewrite Hnr. split; [|by apply Hconc].
      exists logs. rewrite perform_state. simpl.
      by rewrite app_nil_r, <- Hn.
  - rewrite (attempt_raises _ _ _ _ _ _ Hm).
    destruct (isinstance_exn e RetriableConnectionFailure) eqn:Hr.
    + cbn [perform1 fst snd emit st_world st_trace].
      set (s1 := emit (EvClientDebug _) (mk_state w1 _)).
      destruct (task_main self0 c w1) as [[v|e2 tb2] w2] eqn:Hm2.
      * destruct (attempt_returns_concluded self0 c s1 v w2 Hm2)
          as (ts & logs & Hatt & Htr & Hcalls & Hconc).
        destruct Hatt as [Ha|(e2 & tb2 & Ha & Hnr)]; rewrite Ha in *.
        -- split; [|by apply Hconc]. exists logs. rewrite Htr.
           subst s1. simpl. rewrite <- !app_assoc. simpl.
           by rewrite <- Hn.
        -- split; [|by apply Hconc]. exists logs.
           rewrite perform_state. simpl. rewrite app_nil_r, Htr.
           subst s1. simpl. rewrite <- !app_assoc. simpl.
           by rewrite <- Hn.
      * rewrite (attempt_raises self0 c s1 e2 tb2 w2 Hm2).
        split; [|apply perform_exception_ends].
        exists []. rewrite perform_state. subst s1. simpl.
        rewrite app_nil_r, <- !app_assoc. simpl. by rewrite <- Hn.
    + split; [|apply perform_exception_ends].
      exists []. rewrite perform_state. simpl.
      by rewrite app_nil_r, <- Hn.
Qed.

(** ** The completion protocol *)

(** [run] always ends with the signal set, and either leaves the error
    fields as they were or records an error and leaves the stored result as
    it was. *)
Lemma run_ends self c s :
  t_finished (run self c s).1 = true
  ∧ ((t_exception (run self c s).1 = t_exception self
      ∧ t_traceback (run self c s).1 = t_traceback self)
     ∨ ∃ e tb, ended_in_error (run self c s).1 e tb
               ∧ t_result (run self c s).1 = t_result self).
Proof.
  unfold run.
  set (self0 := (perform1 (self, s) (SetClient c)).1).
  change (perform1 (self, s) (SetClient c)) with (self0, s).
  cbv beta iota.
  pose proof (attempt_fields self0 c s) as H1.
  destruct (attempt self0 c s) as [ts [[e tb]|]].
  - destruct (isinstance_exn e RetriableConnectionFailure).
    + assert (Hlog : ∀ msg, (perform1 ts (Log msg)).1 = ts.1)
        by (intros msg; by destruct ts).
      rewrite Hlog.
      pose proof (attempt_fields ts.1 c
        (perform1 ts (Log ("Connection failure for " ++ type_name self0
                           ++ ", retrying"))).2) as H2.
      destruct (attempt ts.1 c _) as [ts2 [[e2 tb2]|]].
      * split; [by destruct ts2|]. right. exists e2, tb2.
        split; [apply perform_exception_ends|].
        destruct H1 as (H1 & _), H2 as (H2 & _), ts2 as [t2 s2].
        simpl in *. by rewrite H2, H1.
      * destruct H1 as (_ & H1 & H1'), H2 as (H2 & H3 & H4).
        split; [done|]. left. by rewrite H3, H4, H1, H1'.
    + split; [by destruct ts|]. right. exists e, tb.
      split; [apply perform_exception_ends|].
      destruct H1 as (H1 & _), ts as [t1 s1]. simpl in *. by rewrite H1.
  - destruct H1 as (H1 & H2 & H3). split; [done|]. left.
    by rewrite H2, H3.
Qed.

Lemma stored_before_signal_intro (stores before : list (effect W)) :
  forallb (fun ef => negb (is_SetFinished ef)) before = true →
  Forall (fun ef => ef ∈ before) stores →
  stored_before_signal stores (before ++ [SetFinished]).
Proof.
  intros Hb Hs. exists before. split; [done|]. split; [|done].
  apply Forall_forall. intros ef Hin.
  rewrite forallb_forall in Hb. apply negb_true_iff, Hb.
  by apply list_elem_of_In.
Qed.

(** The statements of [RequestTask.done]: when it returns, the result is
    stored before the only signal; when it raises, no signal was given. *)
Lemma RequestTask_done_order rk self result :
  match RequestTask_done rk self result with
  | (efs, None) => ∃ v, stored_before_signal [SetResult v] efs
  | (efs, Some _) => existsb is_SetFinished efs = false
  end.
Proof.
  assert (Hn : ∀ before body headers,
    forallb (fun ef => negb (is_SetFinished ef)) before = true →
    match RequestTask_narrow (W:=W) rk before body headers with
    | (efs, None) => ∃ v, stored_before_signal [SetResult v] efs
    | (efs, Some _) => existsb is_SetFinished efs = false
    end).
  { intros before body headers Hb. unfold RequestTask_narrow.
    assert (Hok : ∀ v, stored_before_signal [SetResult v]
      (before ++ [SetResult v; SetRequestId (headers !! request_id_header);
                  SetFinished])).
    { intros v.
      replace (before ++ [SetResult v; SetRequestId
                 (headers !! request_id_header); SetFinished])
        with ((before ++ [SetResult v; SetRequestId
                 (headers !! request_id_header)]) ++ [SetFinished])
        by (by rewrite <- app_assoc).
      apply stored_before_signal_intro.
      - rewrite forallb_app, Hb. reflexivity.
      - repeat constructor. set_solver. }
    assert (Hno : existsb is_SetFinished before = false).
    { clear -Hb. induction before as [|ef before IH]; [done|].
      simpl in *. apply andb_prop in Hb as [H1 H2].
      rewrite IH by done. by destruct (is_SetFinished ef). }
    destruct (result_key_set rk); [|eauto].
    destruct (getitem body (default "" rk)); eauto. }
  unfold RequestTask_done.
  destruct (as_response result) as [[[json text] headers]|]; try done.
  destruct json as [msg|body]; [destruct (t_client self); [|done]|];
    by apply Hn.
Qed.

(** C4 (as amended).  The run of a pending task sets the completion signal
    and leaves exactly one of the two outcomes: no error stored, or an error
    with its traceback and no result.  No statement of any method unsets the
    signal and every [run] ends with it set.  [done] stores the result, and
    [exception] the error and its traceback, before the signal, which is the
    last statement; a [RequestTask.done] that raises gives no signal. *)
Theorem completion_signal_protocol self c s :
  pending self →
  let t' := (run self c s).1 in
  t_finished t' = true
  ∧ ((t_exception t' = None ∧ t_traceback t' = None)
     ∨ ∃ e tb, ended_in_error t' e tb ∧ t_result t' = VNone)
  ∧ (∀ (ef : effect W) (ts : task W * state W),
       t_finished (perform1 ts ef).1 = t_finished ts.1 || is_SetFinished ef)
  ∧ (∀ t1 c1 s1, t_finished (run t1 c1 s1).1 = true)
  ∧ (∀ r, stored_before_signal (W:=W) [SetResult r] (BaseTask_done r))
  ∧ (∀ e tb, stored_before_signal (W:=W)
               [SetException e; SetTraceback tb] (BaseTask_exception e tb))
  ∧ (∀ rk t1 r,
       match RequestTask_done rk t1 r with
       | (efs, None) => ∃ v, stored_before_signal [SetResult v] efs
       | (efs, Some _) => existsb is_SetFinished efs = false
       end).
Proof.
  intros (Hf & He & Ht & Hr) t'. subst t'.
  destruct (run_ends self c s) as [H1 H2].
  split; [done|]. split.
  { destruct H2 as [[H2 H3]|(e & tb & H2 & H3)].
    - left. by rewrite H2, H3.
    - right. exists e, tb. by rewrite H3. }
  split; [intros; apply perform1_finished|].
  split; [intros; apply run_ends|].
  split.
  { intros r. apply (stored_before_signal_intro _ [SetResult r]); [done|].
    repeat constructor. }
  split.
  { intros e tb.
    apply (stored_before_signal_intro _ [SetException e; SetTraceback tb]);
      [done|].
    repeat constructor; set_solver. }
  apply RequestTask_done_order.
Qed.

(** ** Retrieval *)

Variable obj_to_dict : pyval -> option string -> pyval.


(** The classes the object-like test excludes share no instance with the
    list-like classes. *)
Lemma issubclass_scalar_not_listlike (cl d : pyclass) :
  scalar_class d = true → issubclass cl d = true →
  issubclass cl CList = false ∧ issubclass cl CGenerator = false.
Proof.
  intros Hd. induction cl as [| | | | | | | | | | | |n b IH]; intros H.
  1-12: destruct d; try discriminate Hd; by vm_compute in H |- *.
  simpl in H. rewrite bool_decide_eq_false_2 in H by (by destruct d).
  simpl in H. destruct (IH H) as [H1 H2]. simpl.
  by rewrite H1, H2.
Qed.

Lemma scalar_not_listlike r d :
  scalar_class d = true → isinstance r d = true → _is_listlike r = false.
Proof.
  intros Hd H. unfold _is_listlike, isinstance in *.
  by destruct (issubclass_scalar_not_listlike _ _ Hd H) as [-> ->].
Qed.

Lemma scalar_not_objlike r d :
  scalar_class d = true → isinstance r d = true → _is_objlike r = false.
Proof.
  intros Hd H. unfold _is_objlike.
  destruct d; try discriminate Hd; rewrite H; simpl;
    by rewrite ?andb_false_r.
Qed.

(** Iterating a list-like value succeeds; iterating one that is not a
    generator leaves the world as it is. *)
Lemma iterate_listlike obj (w : world W) :
  _is_listlike obj = true → ∃ items, (iterate obj w).1 = Some items.
Proof.
  unfold _is_listlike, isinstance.
  induction obj as [| | | | | | | | | | | |n p IH]; simpl; intros H;
    first [by eauto | by vm_compute in H].
Qed.


Lemma iterate_fst_not_generator obj (w w' : world W) :
  isinstance obj CGenerator = false → (iterate obj w).1 = (iterate obj w').1.
Proof.
  unfold isinstance.
  induction obj as [| | | | | | | | | | | |n p IH]; simpl; intros H;
    first [by eauto | by vm_compute in H].
Qed.

(** With the request id attribute present, normalization returns. *)
Lemma normalize_returns r rid s :
  ∃ v, (normalize obj_to_dict r (Some rid) s).1 = Some (Ret v).
Proof.
  unfold normalize, obj_list_to_dict.
  destruct (_is_listlike r) eqn:Hl.
  - destruct (iterate_listlike r (st_world s) Hl) as [items Hi].
    destruct (iterate r (st_world s)) as [o w]. simpl in Hi. subst o.
    eauto.
  - destruct (_is_objlike r); eauto.
Qed.


(** The test [if self._exception:] at work: a finished task that holds no
    exception, or one whose instance is false, gets its stored result from
    the base [wait]; one that holds a true instance gets it raised. *)
Lemma BaseTask_wait_quiet self raw s :
  t_finished self = true → wait_raises self = false →
  BaseTask_wait self raw s = (Some (Ret (t_result self)), s).
Proof.
  unfold BaseTask_wait, wait_raises. intros -> Hr.
  destruct (t_exception self) as [e|]; [by rewrite Hr|done].
Qed.

Lemma wait_loud self raw s e :
  t_finished self = true → t_exception self = Some e → exc_bool e = true →
  wait obj_to_dict self raw s
  = (Some (Exc e (default [] (t_traceback self))), s).
Proof.
  intros Hf He Hb.
  unfold wait, RunTask_wait, RequestTask_wait, Task_wait, BaseTask_wait.
  rewrite Hf, He, Hb. by destruct (t_class self).
Qed.

Lemma Task_wait_quiet self raw s :
  t_finished self = true → wait_raises self = false →
  Task_wait obj_to_dict self raw s
  = if raw then (Some (Ret (t_result self)), s)
    else normalize obj_to_dict (t_result self) (Some None) s.
Proof.
  intros Hf Hr. unfold Task_wait.
  by rewrite (BaseTask_wait_quiet _ _ _ Hf Hr).
Qed.

Lemma wait_raw_quiet self s :
  t_finished self = true → wait_raises self = false →
  (wait obj_to_dict self true s).1 = Some (Ret (t_result self)).
Proof.
  intros Hf Hr. unfold wait.
  destruct (t_class self) as [n m|n m|n rk m|m n f].
  - by rewrite (BaseTask_wait_quiet _ _ _ Hf Hr).
  - by rewrite (Task_wait_quiet _ _ _ Hf Hr).
  - unfold RequestTask_wait. by rewrite (BaseTask_wait_quiet _ _ _ Hf Hr).
  - unfold RunTask_wait. rewrite (Task_wait_quiet _ _ _ Hf Hr).
    destruct (normalize_returns (t_result self) None s) as [v Hv].
    destruct (normalize obj_to_dict (t_result self) (Some None) s)
      as [o s1].
    simpl in Hv. by subst o.
Qed.

(** C5 (what the code does).  [wait] tests the truth value of the stored
    exception.  When the task ended in an error whose instance is true (as
    it is unless its class defines [__bool__] or [__len__] otherwise),
    [wait] raises that very exception with the stored traceback, for every
    class and raw flag, and leaves everything as it was, so that every later
    call does the same.  When the instance is false, [wait] does not raise
    it: the base [wait] returns the stored result, and so does
    [wait(raw=True)] of every class. *)
Theorem wait_tests_truth_of_stored_exception self raw s e tb :
  ended_in_error self e tb →
  if exc_bool e
  then wait obj_to_dict self raw s = (Some (Exc e tb), s)
       ∧ wait_again obj_to_dict self raw s = Some (Exc e tb)
  else BaseTask_wait self raw s = (Some (Ret (t_result self)), s)
       ∧ (wait obj_to_dict self true s).1 = Some (Ret (t_result self)).
Proof.
  intros (Hf & He & Ht). destruct (exc_bool e) eqn:Hb.
  - assert (H : ∀ s1, wait obj_to_dict self raw s1
                      = (Some (Exc e tb), s1)).
    { intros s1. rewrite (wait_loud _ _ _ _ Hf He Hb). by rewrite Ht. }
    split; [done|]. unfold wait_again. by rewrite !H.
  - assert (Hr : wait_raises self = false).
    { unfold wait_raises. by rewrite He. }
    split; [by apply BaseTask_wait_quiet|by apply wait_raw_quiet].
Qed.

(** C9.  For a task that finished without error, [Task.wait(raw=False)]
    returns a stored boolean, integer, float, text, set or tuple (or an
    instance of a class deriving from one of them) unchanged, and a result it
    does not return unchanged is list-like or object-like. *)
Theorem Task_wait_passes_scalars_through self s :
  t_finished self = true → t_exception self = None →
  (∀ d, scalar_class d = true → isinstance (t_result self) d = true →
        Task_wait obj_to_dict self false s = (Some (Ret (t_result self)), s))
  ∧ (Task_wait obj_to_dict self false s ≠ (Some (Ret (t_result self)), s) →
     _is_listlike (t_result self) = true ∨ _is_objlike (t_result self) = true).
Proof.
  intros Hf He.
  assert (H : Task_wait obj_to_dict self false s
              = normalize obj_to_dict (t_result self) (Some None) s).
  { unfold Task_wait, BaseTask_wait. by rewrite Hf, He. }
  rewrite H. unfold normalize. split.
  - intros d Hd Hi.
    by rewrite (scalar_not_listlike _ _ Hd Hi), (scalar_not_objlike _ _ Hd Hi).
  - destruct (_is_listlike (t_result self)); [by left|].
    destruct (_is_objlike (t_result self)); [by right|]. done.
Qed.

(** C10.  [None] is object-like and not list-like, so for a task that
    finished without error and stored [None], [Task.wait(raw=False)] returns
    the object-to-mapping conversion of [None], and [Task.wait(raw=True)]
    returns [None] itself. *)
Theorem Task_wait_converts_None self s :
  t_finished self = true → t_exception self = None → t_result self = VNone →
  _is_objlike VNone = true ∧ _is_listlike VNone = false
  ∧ Task_wait obj_to_dict self false s
    = (Some (Ret (obj_to_dict VNone None)), s)
  ∧ Task_wait obj_to_dict self true s = (Some (Ret VNone), s).
Proof.
  intros Hf He Hr. unfold Task_wait, BaseTask_wait.
  by rewrite Hf, He, Hr.
Qed.

(** What the retrieval of [Task] gives a task that finished without
    error. *)
Lemma Task_wait_finished self raw s :
  t_finished self = true → t_exception self = None →
  Task_wait obj_to_dict self raw s
  = if raw then (Some (Ret (t_result self)), s)
    else normalize obj_to_dict (t_result self) (Some None) s.
Proof. intros Hf He. unfold Task_wait, BaseTask_wait. by rewrite Hf, He. Qed.

(** C2 (as amended).  For a factory-built task that finished without error,
    [wait(raw=False)] returns the result filter applied to the stored result
    as it is, and [wait(raw=True)] the stored result; the normalization the
    inherited [wait] computes on the way is dropped (only its effect on the
    state remains). *)
Theorem RunTask_wait_filters_stored_result self method name filter s :
  t_class self = RunTask method name filter →
  t_finished self = true → t_exception self = None →
  let s' := (normalize obj_to_dict (t_result self) (Some None) s).2 in
  wait obj_to_dict self false s = (Some (Ret (filter (t_result self))), s')
  ∧ wait obj_to_dict self true s = (Some (Ret (t_result self)), s').
Proof.
  intros Hc Hf He s'. subst s'. unfold wait, RunTask_wait. rewrite Hc.
  rewrite (Task_wait_finished _ _ _ Hf He).
  destruct (normalize_returns (t_result self) None s) as [v Hv].
  destruct (normalize obj_to_dict (t_result self) (Some None) s) as [o s1].
  simpl in Hv. by subst o.
Qed.






(** ** Request tasks *)

(** The run of a request task whose work function returns [v]. *)
Lemma run_request self n rk m c s v w1 :
  t_class self = RequestTaskClass n rk m →
  m (t_args self) c (st_world s) = (Ret v, w1) →
  let self0 := (perform1 (self, s) (SetClient c)).1 in
  let s1 := mk_state w1 (st_trace s ++ [EvMain n]) in
  run self c s
  = match RequestTask_done rk self0 v with
    | (efs, None) => perform efs (self0, s1)
    | (efs, Some (e, tb)) =>
        perform (BaseTask_exception e tb) (perform efs (self0, s1))
    end.
Proof.
  intros Hc Hm self0 s1. unfold run.
  change (perform1 (self, s) (SetClient c)) with (self0, s).
  cbv beta iota.
  assert (Hc0 : t_class self0 = RequestTaskClass n rk m) by done.
  assert (Hm0 : task_main self0 c (st_world s) = (Ret v, w1)).
  { unfold task_main. by rewrite Hc0. }
  rewrite (attempt_returns _ _ _ _ _ Hm0).
  assert (Hn : type_name self0 = n).
  { unfold type_name. by rewrite Hc0. }
  rewrite Hn. fold s1.
  assert (Hd : task_done self0 v = RequestTask_done rk self0 v).
  { unfold task_done. by rewrite Hc0. }
  destruct (task_done_cases self0 v)
    as [(efs & E & _)|(efs & e & tb & E & Hnr & _)];
    rewrite E; rewrite Hd in E; rewrite E; simpl; [done|].
  by rewrite Hnr.
Qed.

(** C7 (as amended).  When the body of the response does not decode, a
    request task logs the decode failure and the text, and goes on with the
    text as the body: with no result key configured the text is the stored
    result and the task does not end in error, so [wait] returns; with a
    result key configured the text is subscripted with it, and the task ends
    in the [TypeError] of that subscript. *)
Theorem RequestTask_decode_failure_falls_back_to_text
    self n rk m c s msg text headers w1 :
  t_class self = RequestTaskClass n rk m →
  m (t_args self) c (st_world s)
    = (Ret (VResponse (inl msg) text headers), w1) →
  let t' := (run self c s).1 in
  let s' := (run self c s).2 in
  st_trace s' = st_trace s ++
    [EvMain n;
     EvClientDebug ("Could not decode json in response: " ++ msg);
     EvClientDebug text]
  ∧ if result_key_set rk
    then ended_in_error t'
           (TypeError "string indices must be integers") ["done"]
    else t_finished t' = true ∧ t_result t' = VStr text
         ∧ t_exception t' = t_exception self
         ∧ (t_exception self = None →
            ∀ s1, wait obj_to_dict t' true s1
                  = (Some (Ret (VStr text)), s1)).
Proof.
  intros Hc Hm t' s'. subst t' s'.
  rewrite (run_request _ _ _ _ _ _ _ _ Hc Hm).
  unfold RequestTask_done, RequestTask_narrow. simpl t_client. cbv iota.
  destruct (result_key_set rk); simpl.
  - split; [by rewrite <- !app_assoc|by repeat split].
  - rewrite <- !app_assoc. repeat split; try done.
    intros He s1. unfold wait. simpl. rewrite Hc.
    unfold RequestTask_wait, BaseTask_wait. simpl. by rewrite He.
Qed.

(** C8.  A request task with a result key configured, whose body decodes to
    a mapping, stores exactly the value at that key when the mapping has it;
    when it has not, the [KeyError] of the lookup is what the task ends in
    and what every [wait] raises. *)
Theorem RequestTask_narrows_to_result_key
    self n key m c s entries text headers w1 :
  t_class self = RequestTaskClass n (Some key) m →
  result_key_set (Some key) = true →
  m (t_args self) c (st_world s)
    = (Ret (VResponse (inr (VDict entries)) text headers), w1) →
  let t' := (run self c s).1 in
  match dict_get entries key with
  | Some v =>
      t_finished t' = true ∧ t_result t' = v
      ∧ t_exception t' = t_exception self
  | None =>
      ended_in_error t' (KeyError key) ["done"]
      ∧ ∀ raw s1, wait obj_to_dict t' raw s1
                  = (Some (Exc (KeyError key) ["done"]), s1)
  end.
Proof.
  intros Hc Hk Hm t'. subst t'.
  rewrite (run_request _ _ _ _ _ _ _ _ Hc Hm).
  unfold RequestTask_done, RequestTask_narrow. rewrite Hk. simpl.
  destruct (dict_get entries key) as [v|]; simpl; [done|].
  split; [done|]. intros raw s1. unfold wait. simpl. rewrite Hc.
  by unfold RequestTask_wait, BaseTask_wait.
Qed.

(** ** The manager *)

(** With the attribute [manager] attached to the instance,
    [submit_function] hands the factory-built task to that manager's
    [submit_task]. *)
Lemma submit_function_with_manager (self mgr : TaskManager W) method name
    filter kw s :
  tm_manager self = Some mgr →
  submit_function obj_to_dict self method name filter kw s
  = let '(o, t, s') :=
      submit_task obj_to_dict mgr
        (RunTask_init
           (generate_task_class method name
              (default (tm_result_filter_cb self) filter)) kw) false s in
    (o, Some t, s').
Proof. intros H. unfold submit_function. by rewrite H. Qed.

(** C1 (the code at a manager as [__init__] builds it).  [submit_function]
    reads [self.manager], which such a manager does not have: the call raises
    [AttributeError] before a task is built, nothing is run and nothing is
    logged. *)
Theorem submit_function_reads_missing_manager c mgr_name default_filter
    method name filter kw s :
  submit_function obj_to_dict (TaskManager_init c mgr_name default_filter)
    method name filter kw s
  = (Some (Exc (AttributeError "manager") ["submit_function"]), None, s).
Proof. reflexivity. Qed.

End Properties.

(** * The properties on the sample objects *)

Module OnSamples.
Import Sample.

Example issubclass_bool_int : issubclass CBool CInt = true.
Proof. reflexivity. Qed.

Example listlike_subclass :
  _is_listlike (VInst "ServerList" (VList [])) = true.
Proof. reflexivity. Qed.

Example recovered_after_one_retry :
  t_result recovered.1 = VInt 7 ∧ t_exception recovered.1 = None
  ∧ st_trace recovered.2
    = [EvMain "GetServer";
       EvClientDebug "Connection failure for GetServer, retrying";
       EvMain "GetServer"].
Proof. by vm_compute. Qed.

Example second_retriable_failure_is_final :
  let r := run (BaseTask_init (TaskClass "GetServer"
                  (always_fails ConnectFailure)) []) cloud s0 in
  ended_in_error r.1 ConnectFailure ["main"]
  ∧ main_calls (st_trace r.2) = 2 ∧ w_ext (st_world r.2) = 2.
Proof. by vm_compute. Qed.

Example submit_task_list_items :
  (submit_task obj_to_dict manager list_items_task true s0).1.1
  = Some (Ret items).
Proof. by vm_compute. Qed.

(** C2, counterexample.  With the identity filter, [wait(raw=False)] on the
    factory task that stored a list of two objects returns that list, not
    the filter applied to the list of the two mappings. *)
Lemma RunTask_wait_skips_normalization :
  (wait obj_to_dict listed.1 false listed.2).1 = Some (Ret items)
  ∧ (RunTask_wait_filter_after_normalization obj_to_dict _result_filter_cb
       listed.1 listed.2).1
    = Some (Ret (VList [VDict [("id", VInt 1)]; VDict [("id", VInt 2)]]))
  ∧ wait obj_to_dict listed.1 false listed.2
    ≠ RunTask_wait_filter_after_normalization obj_to_dict _result_filter_cb
        listed.1 listed.2.
Proof.
  split; [by vm_compute|]. split; [by vm_compute|].
  intros H. apply (f_equal fst) in H. vm_compute in H. discriminate H.
Qed.

Lemma RunTask_wait_filters_stored_result_witness :
  t_class listed.1
    = RunTask (WCallable "list_items" list_items) "list_items"
        _result_filter_cb
  ∧ t_finished listed.1 = true ∧ t_exception listed.1 = None
  ∧ wait obj_to_dict listed.1 false listed.2
    = (Some (Ret (_result_filter_cb (t_result listed.1))),
       (normalize obj_to_dict (t_result listed.1) (Some None) listed.2).2)
  ∧ wait obj_to_dict listed.1 true listed.2
    = (Some (Ret (t_result listed.1)),
       (normalize obj_to_dict (t_result listed.1) (Some None) listed.2).2).
Proof.
  split; [reflexivity|]. split; [reflexivity|]. split; [reflexivity|].
  apply (RunTask_wait_filters_stored_result obj_to_dict listed.1
           (WCallable "list_items" list_items) "list_items"
           _result_filter_cb listed.2); reflexivity.
Defined.

(** C4, counterexample.  A task that ended in error and is run again (its
    work now succeeds) stores a result next to the error it keeps: the
    terminal state is overwritten and both outcomes are stored. *)
Lemma rerun_overwrites_terminal_state :
  ended_in_error failed.1 HttpError ["main"] ∧ t_result failed.1 = VNone
  ∧ t_finished (run failed.1 cloud failed.2).1 = true
  ∧ t_exception (run failed.1 cloud failed.2).1 = Some HttpError
  ∧ t_result (run failed.1 cloud failed.2).1 = VInt 7
  ∧ t_result (run failed.1 cloud failed.2).1 ≠ t_result failed.1.
Proof.
  split; [by repeat split|]. repeat split; try by vm_compute.
Qed.

Lemma completion_signal_protocol_witness :
  pending (flaky_task HttpError)
  ∧ t_finished failed.1 = true
  ∧ ((t_exception failed.1 = None ∧ t_traceback failed.1 = None)
     ∨ ∃ e tb, ended_in_error failed.1 e tb ∧ t_result failed.1 = VNone).
Proof.
  assert (Hp : pending (flaky_task HttpError)) by (by repeat split).
  split; [exact Hp|].
  pose proof (completion_signal_protocol (flaky_task HttpError) cloud s0 Hp)
    as (H1 & H2 & _).
  exact (conj H1 H2).
Defined.

Lemma wait_tests_truth_of_stored_exception_witness :
  ended_in_error MoreSample.emptied.1 MoreSample.Empty ["main"]
  ∧ BaseTask_wait MoreSample.emptied.1 false MoreSample.emptied.2
    = (Some (Ret VNone), MoreSample.emptied.2)
  ∧ (wait obj_to_dict MoreSample.emptied.1 true MoreSample.emptied.2).1
    = Some (Ret VNone).
Proof.
  assert (He : ended_in_error MoreSample.emptied.1 MoreSample.Empty ["main"])
    by (by repeat split).
  split; [exact He|].
  exact (wait_tests_truth_of_stored_exception obj_to_dict
           MoreSample.emptied.1 false MoreSample.emptied.2
           MoreSample.Empty ["main"] He).
Defined.

Example wait_raises_true_exception :
  wait obj_to_dict failed.1 false failed.2
  = (Some (Exc HttpError ["main"]), failed.2).
Proof. by vm_compute. Qed.



Example generator_behind_factory_task_is_replayed :
  let t := RunTask_init
             (generate_task_class
                (WCallable "stream" (fun kw w => stream_servers kw cloud w))
                None _result_filter_cb) [] in
  let r := run t cloud s0 in
  consumes_generator r.1 false r.2 = false
  ∧ wait_again obj_to_dict r.1 false r.2
    = (wait obj_to_dict r.1 false r.2).1.
Proof. by vm_compute. Qed.

(** C7, counterexample.  A request task with the result key "servers" whose
    response body does not decode: the text is not stored as the result, and
    the task ends in the [TypeError] that [wait] raises. *)
Lemma undecodable_body_with_result_key_ends_in_error :
  let r := run (request_task (Some "servers") empty_response) cloud s0 in
  t_result r.1 = VNone ∧ t_result r.1 ≠ VStr ""
  ∧ (wait obj_to_dict r.1 false r.2).1
    = Some (Exc (TypeError "string indices must be integers") ["done"]).
Proof. repeat split; by vm_compute. Qed.

Lemma RequestTask_decode_failure_falls_back_to_text_witness :
  let self := request_task None empty_response in
  st_trace (run self cloud s0).2
  = [EvMain "ServerList";
     EvClientDebug "Could not decode json in response: Expecting value";
     EvClientDebug ""]
  ∧ t_finished (run self cloud s0).1 = true
  ∧ t_result (run self cloud s0).1 = VStr ""
  ∧ t_exception (run self cloud s0).1 = None.
Proof.
  intros self.
  pose proof (RequestTask_decode_failure_falls_back_to_text obj_to_dict
    self "ServerList" None (fun _ _ w => (Ret empty_response, w)) cloud s0
    "Expecting value" "" ∅ (st_world s0) eq_refl eq_refl)
    as (H1 & H2 & H3 & H4 & _).
  exact (conj H1 (conj H2 (conj H3 H4))).
Defined.

Lemma RequestTask_narrows_to_result_key_witness :
  let self := request_task (Some "servers") (servers_response "servers") in
  result_key_set (Some "servers") = true
  ∧ t_finished (run self cloud s0).1 = true
  ∧ t_result (run self cloud s0).1 = VList [VStr "a"]
  ∧ t_exception (run self cloud s0).1 = None.
Proof.
  intros self. split; [reflexivity|].
  exact (RequestTask_narrows_to_result_key obj_to_dict self "ServerList"
    "servers" (fun _ _ w => (Ret (servers_response "servers"), w)) cloud s0
    [("servers", VList [VStr "a"])] "{}" {[ request_id_header := "req-1" ]}
    (st_world s0) eq_refl eq_refl eq_refl).
Defined.

Example missing_result_key_raises_KeyError :
  let r := run (request_task (Some "servers") (servers_response "server"))
             cloud s0 in
  (wait obj_to_dict r.1 false r.2).1
  = Some (Exc (KeyError "servers") ["done"]).
Proof. by vm_compute. Qed.

Lemma Task_wait_passes_scalars_through_witness :
  t_finished recovered.1 = true ∧ t_exception recovered.1 = None
  ∧ isinstance (t_result recovered.1) CInt = true
  ∧ Task_wait obj_to_dict recovered.1 false recovered.2
    = (Some (Ret (VInt 7)), recovered.2).
Proof.
  split; [reflexivity|]. split; [reflexivity|]. split; [reflexivity|].
  exact (proj1 (Task_wait_passes_scalars_through obj_to_dict recovered.1
                  recovered.2 eq_refl eq_refl) CInt eq_refl eq_refl).
Defined.

Lemma Task_wait_converts_None_witness :
  t_finished returned_nothing.1 = true
  ∧ t_exception returned_nothing.1 = None
  ∧ t_result returned_nothing.1 = VNone
  ∧ Task_wait obj_to_dict returned_nothing.1 false returned_nothing.2
    = (Some (Ret (obj_to_dict VNone None)), returned_nothing.2)
  ∧ Task_wait obj_to_dict returned_nothing.1 true returned_nothing.2
    = (Some (Ret VNone), returned_nothing.2).
Proof.
  split; [reflexivity|]. split; [reflexivity|]. split; [reflexivity|].
  exact (proj2 (proj2 (Task_wait_converts_None obj_to_dict returned_nothing.1
                         returned_nothing.2 eq_refl eq_refl eq_refl))).
Defined.

Example submit_function_on_sample_manager :
  submit_function obj_to_dict manager (WCallable "list_items" list_items)
    None None [] s0
  = (Some (Exc (AttributeError "manager") ["submit_function"]), None, s0).
Proof. reflexivity. Qed.

End OnSamples.

(** * Further properties of the module *)

Section Coverage.
Context {W : Type}.
Variable obj_to_dict : pyval -> option string -> pyval.
Implicit Types (t self : task W) (s : state W) (c : client W).

(** ** The classifier *)

(** X1.  Every list-like value is object-like as well: the six classes the
    object-like test excludes have no instance in common with lists and
    generators, so the order of the two tests in [wait] decides. *)
Theorem listlike_is_objlike (r : pyval) :
  _is_listlike r = true → _is_objlike r = true.
Proof.
  intros Hl. unfold _is_objlike.
  assert (H : ∀ d, scalar_class d = true → isinstance r d = false).
  { intros d Hd. destruct (isinstance r d) eqn:Hi; [|done].
    by rewrite (scalar_not_listlike _ _ Hd Hi) in Hl. }
  by rewrite !H.
Qed.

(** X2.  Both tests use [isinstance]: an instance of a user class is
    classified as an instance of the class it derives from. *)
Theorem classifier_follows_base_class (cname : string) (p : pyval) :
  _is_listlike (VInst cname p) = _is_listlike p
  ∧ _is_objlike (VInst cname p) = _is_objlike p.
Proof.
  assert (H : ∀ d, (∀ n b, d ≠ CUser n b) →
                   isinstance (VInst cname p) d = isinstance p d).
  { intros d Hd. unfold isinstance. simpl.
    by rewrite bool_decide_eq_false_2
      by (intros E; by apply (Hd cname (type_of p))). }
  unfold _is_listlike, _is_objlike. by rewrite !H by done.
Qed.

(** ** Fields a run never changes, and its trace *)

Lemma perform1_identity (ef : effect W) (ts : task W * state W) :
  t_name (perform1 ts ef).1 = t_name ts.1
  ∧ t_args (perform1 ts ef).1 = t_args ts.1.
Proof. by destruct ts as [t s], ef. Qed.

Lemma perform_identity (efs : list (effect W)) (ts : task W * state W) :
  t_name (perform efs ts).1 = t_name ts.1
  ∧ t_args (perform efs ts).1 = t_args ts.1.
Proof.
  revert ts. induction efs as [|ef efs IH]; intros ts; [done|].
  rewrite perform_cons.
  destruct (IH (perform1 ts ef)) as [-> ->]. apply perform1_identity.
Qed.

Lemma attempt_identity self c s :
  t_class (attempt self c s).1.1 = t_class self
  ∧ t_name (attempt self c s).1.1 = t_name self
  ∧ t_args (attempt self c s).1.1 = t_args self.
Proof.
  destruct (task_main self c (st_world s)) as [[v|e tb] w] eqn:Hm.
  - rewrite (attempt_returns _ _ _ _ _ Hm). simpl.
    rewrite perform_class.
    by destruct (perform_identity (task_done self v).1
      (self, mk_state w (st_trace s ++ [EvMain (type_name self)])))
      as [-> ->].
  - by rewrite (attempt_raises _ _ _ _ _ _ Hm).
Qed.

Lemma attempt_trace self c s :
  ∃ logs, st_trace (attempt self c s).1.2
          = st_trace s ++ EvMain (type_name self) :: logs
    ∧ main_calls logs = 0.
Proof.
  destruct (task_main self c (st_world s)) as [[v|e tb] w] eqn:Hm.
  - rewrite (attempt_returns _ _ _ _ _ Hm). simpl.
    exists (logs_of (task_done self v).1). rewrite perform_state. simpl.
    rewrite <- app_assoc. split; [done|apply main_calls_logs_of].
  - rewrite (attempt_raises _ _ _ _ _ _ Hm). simpl. by exists [].
Qed.

Lemma run_identity self c s :
  t_class (run self c s).1 = t_class self
  ∧ t_name (run self c s).1 = t_name self
  ∧ t_args (run self c s).1 = t_args self.
Proof.
  unfold run.
  change (perform1 (self, s) (SetClient c)) with (bound self c, s).
  cbv beta iota.
  pose proof (attempt_identity (bound self c) c s) as H1.
  destruct (attempt (bound self c) c s) as [ts [[e tb]|]]; [|done].
  simpl in H1.
  destruct (isinstance_exn e RetriableConnectionFailure).
  - assert (Hlog : ∀ msg, (perform1 ts (Log msg)).1 = ts.1)
      by (intros msg; by destruct ts).
    rewrite Hlog.
    pose proof (attempt_identity ts.1 c
      (perform1 ts (Log ("Connection failure for "
                         ++ type_name (bound self c) ++ ", retrying"))).2)
      as H2.
    destruct (attempt ts.1 c _) as [ts2 [[e2 tb2]|]]; simpl in H2.
    + destruct H1 as (<- & <- & <-), H2 as (<- & <- & <-). by destruct ts2.
    + by destruct H1 as (<- & <- & <-), H2 as (<- & <- & <-).
  - destruct H1 as (<- & <- & <-). by destruct ts.
Qed.

(** What a run adds to the trace holds one or two entries into the work
    function. *)
Lemma run_trace self c s :
  ∃ mid, st_trace (run self c s).2 = st_trace s ++ mid
    ∧ (main_calls mid = 1 ∨ main_calls mid = 2).
Proof.
  unfold run.
  change (perform1 (self, s) (SetClient c)) with (bound self c, s).
  cbv beta iota.
  destruct (attempt_trace (bound self c) c s) as (logs & Ht & Hl).
  destruct (attempt (bound self c) c s) as [ts [[e tb]|]]; simpl in Ht.
  - destruct (isinstance_exn e RetriableConnectionFailure).
    + assert (Hlog : ∀ msg, (perform1 ts (Log msg)).1 = ts.1)
        by (intros msg; by destruct ts).
      rewrite Hlog.
      set (s1 := (perform1 ts (Log _)).2).
      assert (Hs1 : ∃ msg, st_trace s1
                           = st_trace ts.2 ++ [EvClientDebug msg]).
      { subst s1. rewrite perform1_state. simpl. eauto. }
      destruct Hs1 as (msg & Hs1).
      destruct (attempt_trace ts.1 c s1) as (logs2 & Ht2 & Hl2).
      destruct (attempt ts.1 c s1) as [ts2 [[e2 tb2]|]]; simpl in Ht2;
        exists (EvMain (type_name (bound self c)) :: logs
                ++ [EvClientDebug msg]
                ++ EvMain (type_name ts.1) :: logs2);
        (split;
         [rewrite ?perform_state; simpl; rewrite ?app_nil_r, Ht2, Hs1, Ht;
          by rewrite <- !app_assoc
         |right; simpl; rewrite ?main_calls_app; simpl;
          rewrite ?Hl, ?Hl2; simpl; lia]).
    + exists (EvMain (type_name (bound self c)) :: logs). split.
      * rewrite perform_state. simpl. by rewrite app_nil_r.
      * left. simpl. by rewrite Hl.
  - exists (EvMain (type_name (bound self c)) :: logs). split; [done|].
    left. simpl. by rewrite Hl.
Qed.

(** ** Retrieval *)

Lemma normalize_some r rid s :
  ∃ o, (normalize obj_to_dict r rid s).1 = Some o.
Proof.
  unfold normalize.
  destruct (_is_listlike r); [|destruct (_is_objlike r), rid; eauto].
  destruct rid as [rid|]; [|eauto].
  destruct (obj_list_to_dict obj_to_dict r rid (st_world s)). eauto.
Qed.

Lemma normalize_trace r rid s :
  st_trace (normalize obj_to_dict r rid s).2 = st_trace s.
Proof.
  unfold normalize.
  destruct (_is_listlike r); [|by destruct (_is_objlike r), rid].
  destruct rid as [rid|]; [|done].
  by destruct (obj_list_to_dict obj_to_dict r rid (st_world s)).
Qed.

Lemma wait_unfinished self raw s :
  t_finished self = false → wait obj_to_dict self raw s = (None, s).
Proof.
  intros Hf.
  unfold wait, RunTask_wait, RequestTask_wait, Task_wait, BaseTask_wait.
  rewrite Hf. by destruct (t_class self).
Qed.

Lemma wait_error self raw s e :
  t_finished self = true → t_exception self = Some e → exc_bool e = true →
  wait obj_to_dict self raw s
  = (Some (Exc e (default [] (t_traceback self))), s).
Proof. apply wait_loud. Qed.

(** Either [wait] raises the stored exception, or the test
    [if self._exception:] fails. *)
Lemma wait_raises_cases self :
  (∃ e, t_exception self = Some e ∧ exc_bool e = true)
  ∨ wait_raises self = false.
Proof.
  unfold wait_raises. destruct (t_exception self) as [e|]; [|by right].
  destruct (exc_bool e) eqn:Hb; [left; eauto|by right].
Qed.

Lemma wait_finished self raw s :
  t_finished self = true → ∃ o, (wait obj_to_dict self raw s).1 = Some o.
Proof.
  intros Hf. destruct (wait_raises_cases self) as [(e & He & Hb)|Hr].
  { rewrite (wait_error _ _ _ _ Hf He Hb). eauto. }
  unfold wait.
  destruct (t_class self) as [n m|n m|n rk m|m n f].
  - rewrite (BaseTask_wait_quiet _ _ _ Hf Hr). eauto.
  - rewrite (Task_wait_quiet obj_to_dict _ _ _ Hf Hr).
    destruct raw; [eauto|apply normalize_some].
  - unfold RequestTask_wait. rewrite (BaseTask_wait_quiet _ _ _ Hf Hr).
    destruct raw; [eauto|apply normalize_some].
  - unfold RunTask_wait. rewrite (Task_wait_quiet obj_to_dict _ _ _ Hf Hr).
    destruct (normalize_returns obj_to_dict (t_result self) None s)
      as [v Hv].
    destruct (normalize obj_to_dict (t_result self) (Some None) s)
      as [o s1].
    simpl in Hv. subst o. destruct raw; eauto.
Qed.

Lemma wait_trace self raw s :
  st_trace (wait obj_to_dict self raw s).2 = st_trace s.
Proof.
  destruct (t_finished self) eqn:Hf;
    [|by rewrite (wait_unfinished _ _ _ Hf)].
  destruct (wait_raises_cases self) as [(e & He & Hb)|Hr].
  { by rewrite (wait_error _ _ _ _ Hf He Hb). }
  unfold wait.
  destruct (t_class self) as [n m|n m|n rk m|m n f].
  - by rewrite (BaseTask_wait_quiet _ _ _ Hf Hr).
  - rewrite (Task_wait_quiet obj_to_dict _ _ _ Hf Hr).
    destruct raw; [done|apply normalize_trace].
  - unfold RequestTask_wait. rewrite (BaseTask_wait_quiet _ _ _ Hf Hr).
    destruct raw; [done|apply normalize_trace].
  - unfold RunTask_wait. rewrite (Task_wait_quiet obj_to_dict _ _ _ Hf Hr).
    pose proof (normalize_trace (t_result self) (Some None) s) as Ht.
    destruct (normalize obj_to_dict (t_result self) (Some None) s)
      as [[[v|e tb]|] s1]; simpl in *; by destruct raw.
Qed.

(** X3.  [wait] blocks exactly when the completion signal is not set,
    whatever the class of the task and the raw flag, and a blocked call has
    changed nothing. *)
Theorem wait_blocks_iff_unfinished self raw s :
  ((wait obj_to_dict self raw s).1 = None ↔ t_finished self = false)
  ∧ ((wait obj_to_dict self raw s).1 = None →
     (wait obj_to_dict self raw s).2 = s).
Proof.
  assert (H : (wait obj_to_dict self raw s).1 = None →
              t_finished self = false).
  { intros Hw. destruct (t_finished self) eqn:Hf; [|done].
    destruct (wait_finished self raw s Hf) as [o Ho]. congruence. }
  split; [split; [done|]|].
  - intros Hf. by rewrite (wait_unfinished _ _ _ Hf).
  - intros Hw. by rewrite (wait_unfinished _ _ _ (H Hw)).
Qed.

(** X4.  [submit_task] never blocks: [run] always sets the signal, so the
    [wait] that follows returns or raises, for every task, whatever state it
    was submitted in. *)
Theorem submit_task_gives_an_outcome (mgr : TaskManager W) t raw s :
  ∃ o, (submit_task obj_to_dict mgr t raw s).1.1 = Some o.
Proof.
  unfold submit_task.
  set (s1 := emit _ s).
  pose proof (run_ends t (tm_client mgr) s1) as [Hf _].
  destruct (run t (tm_client mgr) s1) as [t1 s2]. simpl in Hf.
  set (s3 := emit _ s2).
  destruct (wait_finished t1 raw s3 Hf) as [o Ho].
  destruct (wait obj_to_dict t1 raw s3) as [o' s4]. simpl in *. eauto.
Qed.

(** X5.  The two debug lines of the manager bracket the run, both with the
    manager's name and the task's name, also when the work fails; between
    them the work function is entered once or twice, and [wait] adds
    nothing.  The task comes back with its name, class and arguments. *)
Theorem submit_task_brackets_run (mgr : TaskManager W) t raw s :
  let r := submit_task obj_to_dict mgr t raw s in
  (∃ mid, st_trace r.2
          = st_trace s ++ EvManagerRunning (tm_name mgr) (t_name t) :: mid
            ++ [EvManagerRan (tm_name mgr) (t_name t)]
     ∧ (main_calls mid = 1 ∨ main_calls mid = 2))
  ∧ t_name r.1.2 = t_name t ∧ t_class r.1.2 = t_class t
  ∧ t_args r.1.2 = t_args t.
Proof.
  unfold submit_task.
  set (s1 := emit _ s).
  destruct (run_trace t (tm_client mgr) s1) as (mid & Ht & Hm).
  destruct (run_identity t (tm_client mgr) s1) as (Hc & Hn & Ha).
  destruct (run t (tm_client mgr) s1) as [t1 s2]. simpl in *.
  pose proof (wait_trace t1 raw
    (emit (EvManagerRan (tm_name mgr) (t_name t1)) s2)) as Hw.
  destruct (wait obj_to_dict t1 raw _) as [o s4]. simpl in *.
  split; [|done]. exists mid. split; [|done].
  rewrite Hw, Ht, Hn. subst s1. simpl. by rewrite <- !app_assoc.
Qed.

(** ** What [run] leaves, case by case *)

Lemma task_main_bound self c c' (w : world W) :
  task_main (bound self c) c' w = task_main self c' w.
Proof. reflexivity. Qed.

Lemma run_fails_fast self c s e tb w :
  task_main self c (st_world s) = (Exc e tb, w) →
  isinstance_exn e RetriableConnectionFailure = false →
  run self c s
  = perform (BaseTask_exception e tb)
      (bound self c, mk_state w (st_trace s ++ [EvMain (type_name self)])).
Proof.
  intros Hm Hr. unfold run.
  change (perform1 (self, s) (SetClient c)) with (bound self c, s).
  cbv beta iota. rewrite <- (task_main_bound self c) in Hm.
  by rewrite (attempt_raises _ _ _ _ _ _ Hm), Hr.
Qed.

Lemma task_done_plain self v :
  plain_done (t_class self) = true →
  task_done self v = (BaseTask_done v, None).
Proof. unfold task_done. by destruct (t_class self). Qed.

Lemma run_succeeds_plain self c s v w :
  plain_done (t_class self) = true →
  task_main self c (st_world s) = (Ret v, w) →
  run self c s
  = perform (BaseTask_done v)
      (bound self c, mk_state w (st_trace s ++ [EvMain (type_name self)])).
Proof.
  intros Hp Hm. unfold run.
  change (perform1 (self, s) (SetClient c)) with (bound self c, s).
  cbv beta iota. rewrite <- (task_main_bound self c) in Hm.
  rewrite (attempt_returns _ _ _ _ _ Hm).
  by rewrite (task_done_plain (bound self c) v Hp).
Qed.

(** After a retriable first failure, [run] is the second attempt. *)
Lemma run_retries self c s e tb w :
  task_main self c (st_world s) = (Exc e tb, w) →
  isinstance_exn e RetriableConnectionFailure = true →
  run self c s
  = match attempt (bound self c) c
            (mk_state w (st_trace s ++ [EvMain (type_name self);
                                        retry_line self])) with
    | (ts, None) => ts
    | (ts, Some (e2, tb2)) => perform (BaseTask_exception e2 tb2) ts
    end.
Proof.
  intros Hm Hr. unfold run.
  change (perform1 (self, s) (SetClient c)) with (bound self c, s).
  cbv beta iota. rewrite <- (task_main_bound self c) in Hm.
  rewrite (attempt_raises _ _ _ _ _ _ Hm), Hr.
  cbn [perform1 fst snd]. unfold emit. simpl.
  by rewrite <- app_assoc.
Qed.

(** What [wait(raw=True)] gives a task that finished without error. *)
Lemma wait_raw_outcome self s :
  t_finished self = true → t_exception self = None →
  (wait obj_to_dict self true s).1 = Some (Ret (t_result self)).
Proof.
  intros Hf He. unfold wait.
  destruct (t_class self) as [n m|n m|n rk m|m n f].
  - unfold BaseTask_wait. by rewrite Hf, He.
  - by rewrite (Task_wait_finished _ _ _ _ Hf He).
  - unfold RequestTask_wait, BaseTask_wait. by rewrite Hf, He.
  - unfold RunTask_wait. rewrite (Task_wait_finished _ _ _ _ Hf He).
    destruct (normalize_returns obj_to_dict (t_result self) None s)
      as [v Hv].
    destruct (normalize obj_to_dict (t_result self) (Some None) s)
      as [o s1].
    simpl in Hv. by subst o.
Qed.

Lemma RunTask_wait_outcome self method name filter raw s :
  t_class self = RunTask method name filter →
  t_finished self = true → t_exception self = None →
  (wait obj_to_dict self raw s).1
  = Some (Ret (if raw then t_result self else filter (t_result self))).
Proof.
  intros Hc Hf He. unfold wait, RunTask_wait. rewrite Hc.
  rewrite (Task_wait_finished _ _ _ _ Hf He).
  destruct (normalize_returns obj_to_dict (t_result self) None s) as [v Hv].
  destruct (normalize obj_to_dict (t_result self) (Some None) s) as [o s1].
  simpl in Hv. subst o. by destruct raw.
Qed.

(** ** Failures and retries through [submit_task] *)

Lemma work_failure_through_submit_task
    (mgr : TaskManager W) t raw s e tb w :
  task_main t (tm_client mgr) (st_world s) = (Exc e tb, w) →
  isinstance_exn e RetriableConnectionFailure = false →
  exc_bool e = true →
  (submit_task obj_to_dict mgr t raw s).1.1 = Some (Exc e tb).
Proof.
  intros Hm Hr Hb. unfold submit_task.
  set (s1 := emit _ s).
  rewrite (run_fails_fast t (tm_client mgr) s1 e tb w Hm Hr).
  cbn [perform BaseTask_exception fold_left perform1].
  set (t1 := mk_task _ _ _ _ _ _ _ _ _ _).
  set (s3 := emit _ _).
  by rewrite (wait_error t1 raw s3 e eq_refl eq_refl Hb).
Qed.

(** X6.  When the work function raises an exception that is not the
    retriable kind, what [submit_task] does depends on the truth value of
    that exception, which [wait] tests: an exception that is true (as
    exceptions are unless their class says otherwise) is raised with its
    traceback, for every class of task, both raw flags and whatever the task
    held before; one that is false is stored but not raised, and
    [submit_task(raw=True)] returns the result the task held before. *)
Theorem submit_task_raises_work_failure (mgr : TaskManager W) t raw s e tb w :
  task_main t (tm_client mgr) (st_world s) = (Exc e tb, w) →
  isinstance_exn e RetriableConnectionFailure = false →
  if exc_bool e
  then (submit_task obj_to_dict mgr t raw s).1.1 = Some (Exc e tb)
  else (submit_task obj_to_dict mgr t true s).1.1 = Some (Ret (t_result t)).
Proof.
  intros Hm Hr. destruct (exc_bool e) eqn:Hb.
  - by apply (work_failure_through_submit_task mgr t raw s e tb w).
  - unfold submit_task. set (s1 := emit _ s).
    rewrite (run_fails_fast t (tm_client mgr) s1 e tb w Hm Hr).
    cbn [perform BaseTask_exception fold_left perform1].
    set (t1 := mk_task _ _ _ _ _ _ _ _ _ _).
    set (s3 := emit _ _).
    assert (Hq : wait_raises t1 = false) by exact Hb.
    pose proof (wait_raw_quiet obj_to_dict t1 s3 eq_refl Hq) as Hw.
    by destruct (wait obj_to_dict t1 true s3).
Qed.

(** X7.  One retriable failure is invisible to the caller: when the first
    execution raises the retriable kind and the second returns [v], a task
    with no error stored and with the inherited [done] gives [v] from
    [submit_task(raw=True)]. *)
Theorem submit_task_hides_one_retriable_failure
    (mgr : TaskManager W) t s e tb w1 v w2 :
  plain_done (t_class t) = true → t_exception t = None →
  task_main t (tm_client mgr) (st_world s) = (Exc e tb, w1) →
  isinstance_exn e RetriableConnectionFailure = true →
  task_main t (tm_client mgr) w1 = (Ret v, w2) →
  (submit_task obj_to_dict mgr t true s).1.1 = Some (Ret v).
Proof.
  intros Hp He Hm Hr Hm2. unfold submit_task.
  set (s1 := emit _ s).
  rewrite (run_retries t (tm_client mgr) s1 e tb w1 Hm Hr).
  rewrite <- (task_main_bound t (tm_client mgr)) in Hm2.
  rewrite (attempt_returns (bound t (tm_client mgr)) _
             (mk_state w1 _) v w2 Hm2).
  rewrite (task_done_plain (bound t (tm_client mgr)) v Hp).
  cbn [fst snd perform BaseTask_done fold_left perform1].
  set (t1 := mk_task _ _ _ _ _ _ _ _ _ _).
  set (s3 := emit _ _).
  pose proof (wait_raw_outcome t1 s3 eq_refl He) as Hw.
  by destruct (wait obj_to_dict t1 true s3).
Qed.

(** X8.  A failure of the second execution is not retried: after a
    retriable first failure, whatever the second execution raises, retriable
    or not, ends the task, and [submit_task] raises it if it is true; if it
    is false it is stored but not raised, and [submit_task(raw=True)]
    returns the result the task held before. *)
Theorem submit_task_raises_second_failure
    (mgr : TaskManager W) t raw s e tb w1 e2 tb2 w2 :
  task_main t (tm_client mgr) (st_world s) = (Exc e tb, w1) →
  isinstance_exn e RetriableConnectionFailure = true →
  task_main t (tm_client mgr) w1 = (Exc e2 tb2, w2) →
  if exc_bool e2
  then (submit_task obj_to_dict mgr t raw s).1.1 = Some (Exc e2 tb2)
  else (submit_task obj_to_dict mgr t true s).1.1 = Some (Ret (t_result t)).
Proof.
  intros Hm Hr Hm2.
  assert (Hrun : ∀ s1, st_world s1 = st_world s →
    ∃ s2, run t (tm_client mgr) s1
          = perform (BaseTask_exception e2 tb2) (bound t (tm_client mgr), s2)).
  { intros s1 Hs1. rewrite <- Hs1 in Hm.
    rewrite (run_retries t (tm_client mgr) s1 e tb w1 Hm Hr).
    rewrite <- (task_main_bound t (tm_client mgr)) in Hm2.
    rewrite (attempt_raises (bound t (tm_client mgr)) _
               (mk_state w1 _) e2 tb2 w2 Hm2). eauto. }
  destruct (exc_bool e2) eqn:Hb; unfold submit_task; set (s1 := emit _ s);
    destruct (Hrun s1 eq_refl) as [s2 ->];
    cbn [perform BaseTask_exception fold_left perform1];
    set (t1 := mk_task _ _ _ _ _ _ _ _ _ _); set (s3 := emit _ _).
  - by rewrite (wait_error t1 raw s3 e2 eq_refl eq_refl Hb).
  - assert (Hq : wait_raises t1 = false) by exact Hb.
    pose proof (wait_raw_quiet obj_to_dict t1 s3 eq_refl Hq) as Hw.
    by destruct (wait obj_to_dict t1 true s3).
Qed.

(** X9.  A stored error is never cleared: when a task that holds an
    exception is submitted again and its work now returns [v], [v] is stored
    next to the old exception, and [wait] tests that exception again: if it
    is true (as exceptions are unless their class says otherwise),
    [submit_task] still raises it; if it is false, [submit_task(raw=True)]
    returns [v]. *)
Theorem stale_error_masks_later_success
    (mgr : TaskManager W) t raw s e0 v w :
  plain_done (t_class t) = true →
  t_exception t = Some e0 →
  task_main t (tm_client mgr) (st_world s) = (Ret v, w) →
  t_result (submit_task obj_to_dict mgr t raw s).1.2 = v
  ∧ t_exception (submit_task obj_to_dict mgr t raw s).1.2 = Some e0
  ∧ if exc_bool e0
    then (submit_task obj_to_dict mgr t raw s).1.1
         = Some (Exc e0 (default [] (t_traceback t)))
    else (submit_task obj_to_dict mgr t true s).1.1 = Some (Ret v).
Proof.
  intros Hp He Hm.
  assert (H : ∀ raw', ∃ t1 s3,
    t_result t1 = v ∧ t_exception t1 = Some e0 ∧ t_finished t1 = true
    ∧ t_traceback t1 = t_traceback t
    ∧ submit_task obj_to_dict mgr t raw' s
      = ((wait obj_to_dict t1 raw' s3).1, t1,
         (wait obj_to_dict t1 raw' s3).2)).
  { intros raw'. unfold submit_task. set (s1 := emit _ s).
    rewrite (run_succeeds_plain t (tm_client mgr) s1 v w Hp Hm).
    cbn [perform BaseTask_done fold_left perform1].
    set (t1 := mk_task _ _ _ _ _ _ _ _ _ _).
    set (s3 := emit _ _).
    exists t1, s3. repeat split; try done.
    by destruct (wait obj_to_dict t1 raw' s3). }
  destruct (H raw) as (t1 & s3 & Hr & Hx & Hf & Htb & ->). simpl.
  split; [done|]. split; [done|].
  destruct (exc_bool e0) eqn:Hb.
  - by rewrite (wait_error t1 raw s3 e0 Hf Hx Hb), Htb.
  - destruct (H true) as (t2 & s4 & Hr2 & Hx2 & Hf2 & _ & ->). simpl.
    assert (Hq : wait_raises t2 = false).
    { unfold wait_raises. by rewrite Hx2. }
    by rewrite (wait_raw_quiet obj_to_dict t2 s4 Hf2 Hq), Hr2.
Qed.

(** X10.  A factory task around a callable: when the callable, given the
    task's keyword arguments, returns [v], [submit_task] returns the filter
    applied to [v], or [v] itself when raw; the manager's two lines carry the
    name given to the factory, or the callable's own name when none was
    given, while the entry into the work function is the one of class
    [RunTask]. *)
Theorem submit_task_runs_factory_callable
    (mgr : TaskManager W) fname f name filter kw s v w :
  f kw (st_world s) = (Ret v, w) →
  let t := RunTask_init
             (generate_task_class (WCallable fname f) name filter) kw in
  (submit_task obj_to_dict mgr t false s).1.1 = Some (Ret (filter v))
  ∧ (submit_task obj_to_dict mgr t true s).1.1 = Some (Ret v)
  ∧ ∀ raw, st_trace (submit_task obj_to_dict mgr t raw s).2
           = st_trace s ++
             [EvManagerRunning (tm_name mgr) (default fname name);
              EvMain "RunTask";
              EvManagerRan (tm_name mgr) (default fname name)].
Proof.
  intros Hf t.
  assert (Hm : task_main t (tm_client mgr) (st_world s) = (Ret v, w))
    by exact Hf.
  assert (Hn : t_name t = default fname name) by (by destruct name).
  assert (Hrun : ∀ s1, st_world s1 = st_world s →
    run t (tm_client mgr) s1
    = perform (BaseTask_done v)
        (bound t (tm_client mgr),
         mk_state w (st_trace s1 ++ [EvMain "RunTask"]))).
  { intros s1 Hs1. rewrite <- Hs1 in Hm.
    by rewrite (run_succeeds_plain t (tm_client mgr) s1 v w eq_refl Hm). }
  assert (Hall : ∀ raw,
    (submit_task obj_to_dict mgr t raw s).1.1
      = Some (Ret (if raw then v else filter v))
    ∧ st_trace (submit_task obj_to_dict mgr t raw s).2
      = st_trace s ++
        [EvManagerRunning (tm_name mgr) (default fname name);
         EvMain "RunTask";
         EvManagerRan (tm_name mgr) (default fname name)]).
  { intros raw. unfold submit_task.
    set (s1 := emit _ s). rewrite (Hrun s1 eq_refl).
    cbn [perform BaseTask_done fold_left perform1].
    set (t1 := mk_task _ _ _ _ _ _ _ _ _ _).
    set (s3 := emit _ _).
    pose proof (RunTask_wait_outcome t1 (WCallable fname f)
                  (default fname name) filter raw s3) as Hw.
    pose proof (wait_trace t1 raw s3) as Ht.
    destruct (wait obj_to_dict t1 raw s3) as [o s4]. simpl in *.
    split.
    - apply Hw; [by destruct name|done|done].
    - rewrite Ht. subst s3 s1. simpl. rewrite Hn.
      by rewrite <- !app_assoc. }
  split; [apply (Hall false)|]. split; [apply (Hall true)|].
  intros raw. apply Hall.
Qed.

(** X11.  A factory task around a method name looks the method up on the
    manager's client when it runs.  If the client has no such attribute, the
    task ends in the [AttributeError] of the lookup, which [submit_task]
    raises, and the client's state is untouched; if it has, the work of the
    task is the call of that method with the keyword arguments, and when the
    method returns [v], [submit_task] returns the filter applied to [v], or
    [v] itself when raw. *)
Theorem submit_task_resolves_method_name
    (mgr : TaskManager W) attr name filter kw s raw :
  let t := RunTask_init
             (generate_task_class (WMethodName attr) name filter) kw in
  match client_attr (tm_client mgr) attr with
  | None =>
      (submit_task obj_to_dict mgr t raw s).1.1
        = Some (Exc (AttributeError attr) ["main"])
      ∧ st_world (submit_task obj_to_dict mgr t raw s).2 = st_world s
  | Some meth =>
      (∀ w, task_main t (tm_client mgr) w = meth kw w)
      ∧ ∀ v w, meth kw (st_world s) = (Ret v, w) →
               (submit_task obj_to_dict mgr t raw s).1.1
               = Some (Ret (if raw then v else filter v))
  end.
Proof.
  intros t.
  assert (Hmain : ∀ w, task_main t (tm_client mgr) w
    = match client_attr (tm_client mgr) attr with
      | Some meth => meth kw w
      | None => (Exc (AttributeError attr) ["main"], w)
      end) by reflexivity.
  destruct (client_attr (tm_client mgr) attr) as [meth|].
  - split; [done|]. intros v w Hmeth.
    rewrite <- Hmain in Hmeth.
    unfold submit_task. set (s1 := emit _ s).
    rewrite (run_succeeds_plain t (tm_client mgr) s1 v w eq_refl Hmeth).
    cbn [perform BaseTask_done fold_left perform1].
    set (t1 := mk_task _ _ _ _ _ _ _ _ _ _).
    set (s3 := emit _ _).
    pose proof (RunTask_wait_outcome t1 (WMethodName attr)
                  (default attr name) filter raw s3) as Hw.
    destruct (wait obj_to_dict t1 raw s3) as [o s4]. simpl in *.
    apply Hw; [by destruct name|done|done].
  - split.
    + by apply (work_failure_through_submit_task mgr t raw s _ _
                  (st_world s)).
    + unfold submit_task. set (s1 := emit _ s).
      rewrite (run_fails_fast t (tm_client mgr) s1 _ _ _
                 (Hmain (st_world s)) eq_refl).
      cbn [perform BaseTask_exception fold_left perform1].
      set (t1 := mk_task _ _ _ _ _ _ _ _ _ _).
      set (s3 := emit _ _).
      by rewrite (wait_error t1 raw s3 _ eq_refl eq_refl eq_refl).
Qed.

(** X12.  On an instance that has a [manager] attribute, [submit_function]
    runs the factory task on that attached manager: the work (a callable, or
    a method name resolved on a client) is executed against the attached
    manager's client, not the caller's own, and the log lines carry the
    attached manager's name; the result filter is the one of the instance it
    was called on unless one is passed.  When the work, run against the
    attached manager's client, returns [v], the call returns the filter
    applied to [v]. *)
Theorem submit_function_delegates_to_attached_manager
    (self mgr : TaskManager W) method name filter kw s v w :
  tm_manager self = Some mgr →
  let flt := default (tm_result_filter_cb self) filter in
  let t := RunTask_init (generate_task_class method name flt) kw in
  task_main t (tm_client mgr) (st_world s) = (Ret v, w) →
  let r := submit_function obj_to_dict self method name filter kw s in
  r.1.1 = Some (Ret (flt v))
  ∧ t_client <$> r.1.2 = Some (Some (tm_client mgr))
  ∧ st_trace r.2
    = st_trace s ++
      [EvManagerRunning (tm_name mgr) (default (work_name method) name);
       EvMain "RunTask";
       EvManagerRan (tm_name mgr) (default (work_name method) name)].
Proof.
  intros Hmgr flt t Hm r. subst r. unfold submit_function. rewrite Hmgr.
  fold flt. fold t.
  assert (Hn : t_name t = default (work_name method) name)
    by (by destruct name, method).
  unfold submit_task. set (s1 := emit _ s).
  rewrite (run_succeeds_plain t (tm_client mgr) s1 v w eq_refl Hm).
  cbn [perform BaseTask_done fold_left perform1].
  set (t1 := mk_task _ _ _ _ _ _ _ _ _ _).
  set (s3 := emit _ _).
  pose proof (RunTask_wait_outcome t1 method
                (default (work_name method) name) flt false s3) as Hw.
  pose proof (wait_trace t1 false s3) as Ht.
  destruct (wait obj_to_dict t1 false s3) as [o s4]. simpl in *.
  split; [|split; [done|]].
  - apply Hw; [by destruct name, method|done|done].
  - rewrite Ht. subst s3 s1. simpl. rewrite Hn.
    by rewrite <- !app_assoc.
Qed.

(** ** Request tasks *)

Lemma RequestTask_done_response rk self v (ts : task W * state W) :
  t_response (perform (RequestTask_done rk self v).1 ts).1 = v.
Proof.
  assert (Hn : ∀ before body headers,
    t_response (perform before ts).1 = v →
    t_response (perform
      (RequestTask_narrow (W:=W) rk before body headers).1 ts).1 = v).
  { intros before body headers Hb.
    destruct (RequestTask_narrow_cases rk before body headers)
      as [[r ->]|[e [-> _]]]; [|done].
    simpl. rewrite perform_app. by destruct (perform before ts). }
  unfold RequestTask_done.
  destruct (as_response v) as [[[json text] headers]|];
    try (by destruct ts).
  destruct json as [msg|body].
  - destruct (t_client self); [|by destruct ts].
    apply Hn. by destruct ts.
  - apply Hn. by destruct ts.
Qed.

(** X13.  A request task keeps the raw response: whatever its work function
    returns is stored as the response before anything else, also when
    decoding or narrowing then fails and the task ends in error. *)
Theorem RequestTask_keeps_response self n rk m c s v w1 :
  t_class self = RequestTaskClass n rk m →
  m (t_args self) c (st_world s) = (Ret v, w1) →
  t_response (run self c s).1 = v.
Proof.
  intros Hc Hm. rewrite (run_request _ _ _ _ _ _ _ _ Hc Hm).
  pose proof (RequestTask_done_response rk
    (perform1 (self, s) (SetClient c)).1 v
    ((perform1 (self, s) (SetClient c)).1,
     mk_state w1 (st_trace s ++ [EvMain n]))) as H.
  destruct (RequestTask_done rk _ v) as [efs [[e tb]|]]; simpl in *;
    [|done].
  by destruct (perform efs _).
Qed.

(** X14.  With no result key in force ([None] or the empty text, both
    false for [if self.result_key:]), a body that decodes is stored whole,
    together with the request id the response carries in its
    [x-openstack-request-id] header (or [None] without that header), and
    nothing is logged on the client.  [wait(raw=False)] then converts an
    object-like body with that request id. *)
Theorem RequestTask_without_result_key_stores_body
    self n rk m c s body text headers w1 :
  t_class self = RequestTaskClass n rk m →
  result_key_set rk = false →
  m (t_args self) c (st_world s)
    = (Ret (VResponse (inr body) text headers), w1) →
  let t' := (run self c s).1 in
  t_finished t' = true ∧ t_result t' = body
  ∧ t_request_id t' = Some (headers !! request_id_header)
  ∧ t_exception t' = t_exception self
  ∧ st_trace (run self c s).2 = st_trace s ++ [EvMain n]
  ∧ (t_exception self = None → _is_listlike body = false →
     _is_objlike body = true →
     ∀ s1, wait obj_to_dict t' false s1
           = (Some (Ret (obj_to_dict body (headers !! request_id_header))),
              s1)).
Proof.
  intros Hc Hk Hm t'. subst t'.
  rewrite (run_request _ _ _ _ _ _ _ _ Hc Hm).
  unfold RequestTask_done, RequestTask_narrow. rewrite Hk. simpl.
  repeat split; try done.
  intros He Hl Ho s1. unfold wait. simpl. rewrite Hc.
  unfold RequestTask_wait, BaseTask_wait, normalize. simpl.
  by rewrite He, Hl, Ho.
Qed.

Lemma RequestTask_done_sets_request_id rk self v efs
    (ts : task W * state W) :
  RequestTask_done rk self v = (efs, None) →
  is_Some (t_request_id (perform efs ts).1).
Proof.
  assert (Hn : ∀ before body headers efs',
    RequestTask_narrow (W:=W) rk before body headers = (efs', None) →
    is_Some (t_request_id (perform efs' ts).1)).
  { intros before body headers efs' E.
    destruct (RequestTask_narrow_cases rk before body headers)
      as [[r E']|[e [E' _]]]; rewrite E' in E; [|done].
    inversion E; subst. rewrite perform_app.
    destruct (perform before ts). simpl. eauto. }
  unfold RequestTask_done.
  destruct (as_response v) as [[[json text] headers]|]; try done.
  destruct json as [msg|body]; [destruct (t_client self); [|done]|];
    apply Hn.
Qed.

Lemma attempt_request_id self n rk m c s ts :
  t_class self = RequestTaskClass n rk m →
  attempt self c s = (ts, None) → is_Some (t_request_id ts.1).
Proof.
  intros Hc Ha.
  destruct (task_main self c (st_world s)) as [[v|e tb] w] eqn:Hm.
  - rewrite (attempt_returns _ _ _ _ _ Hm) in Ha. inversion Ha as [[H1 H2]].
    unfold task_done in *. rewrite Hc in *.
    destruct (RequestTask_done rk self v) as [efs o] eqn:E.
    simpl in *. subst o.
    by apply (RequestTask_done_sets_request_id rk self v).
  - by rewrite (attempt_raises _ _ _ _ _ _ Hm) in Ha.
Qed.

(** X15.  A request task that [run] leaves without a stored error has its
    [_request_id] attribute: [RequestTask.wait] never fails on a missing
    attribute after a run that went well. *)
Theorem RequestTask_run_sets_request_id self n rk m c s :
  t_class self = RequestTaskClass n rk m →
  t_exception (run self c s).1 = None →
  is_Some (t_request_id (run self c s).1).
Proof.
  intros Hc. unfold run.
  change (perform1 (self, s) (SetClient c)) with (bound self c, s).
  cbv beta iota.
  assert (Hc0 : t_class (bound self c) = RequestTaskClass n rk m) by done.
  pose proof (attempt_request_id (bound self c) n rk m c s) as H1.
  pose proof (attempt_identity (bound self c) c s) as (Hc1 & _).
  destruct (attempt (bound self c) c s) as [ts [[e tb]|]].
  - destruct (isinstance_exn e RetriableConnectionFailure).
    + assert (Hlog : ∀ msg, (perform1 ts (Log msg)).1 = ts.1)
        by (intros msg; by destruct ts).
      rewrite Hlog. simpl in Hc1. rewrite Hc in Hc1.
      pose proof (attempt_request_id ts.1 n rk m c
        (perform1 ts (Log ("Connection failure for "
                           ++ type_name (bound self c) ++ ", retrying"))).2)
        as H2.
      destruct (attempt ts.1 c _) as [ts2 [[e2 tb2]|]].
      * intros He. by destruct ts2.
      * intros _. by apply H2.
    + intros He. by destruct ts.
  - intros _. by apply H1.
Qed.

(** X16.  With a result key in force, a body that decodes to something
    that is not a mapping (an array, a text, a number, a boolean, null) ends
    the task in the [TypeError] of the subscript; the stored result is left
    as it was. *)
Theorem RequestTask_narrowing_needs_a_mapping
    self n rk m c s body text headers w1 :
  t_class self = RequestTaskClass n rk m →
  result_key_set rk = true → json_non_object body = true →
  m (t_args self) c (st_world s)
    = (Ret (VResponse (inr body) text headers), w1) →
  (∃ msg, ended_in_error (run self c s).1 (TypeError msg) ["done"])
  ∧ t_result (run self c s).1 = t_result self.
Proof.
  intros Hc Hk Hb Hm.
  rewrite (run_request _ _ _ _ _ _ _ _ Hc Hm).
  unfold RequestTask_done, RequestTask_narrow. rewrite Hk.
  destruct body; try discriminate Hb; simpl;
    (split; [eexists; by repeat split|done]).
Qed.

(** X17.  When the work function of a request task returns a built-in
    value instead of a response, the call of [.json()] on it fails: the task
    ends in [AttributeError], with that value stored as the response. *)
Theorem RequestTask_needs_a_response self n rk m c s v w1 :
  t_class self = RequestTaskClass n rk m →
  lacks_json v = true →
  m (t_args self) c (st_world s) = (Ret v, w1) →
  ended_in_error (run self c s).1 (AttributeError "json") ["done"]
  ∧ t_response (run self c s).1 = v
  ∧ t_result (run self c s).1 = t_result self.
Proof.
  intros Hc Hv Hm.
  rewrite (run_request _ _ _ _ _ _ _ _ Hc Hm).
  unfold RequestTask_done.
  destruct v; try discriminate Hv; by repeat split.
Qed.

(** ** The raw flag *)

(** X18.  For a task that finished without error, [wait(raw=True)] returns
    the stored result itself, for every class; for every class but the
    factory's [RunTask] it also leaves the state as it is, so that a stored
    generator is handed out unconsumed. *)
Theorem wait_raw_returns_stored_result self s :
  t_finished self = true → t_exception self = None →
  (wait obj_to_dict self true s).1 = Some (Ret (t_result self))
  ∧ (own_wait (t_class self) = true →
     (wait obj_to_dict self true s).2 = s).
Proof.
  intros Hf He. split; [by apply wait_raw_outcome|].
  unfold wait.
  destruct (t_class self) as [n m|n m|n rk m|m n f]; intros Ho;
    try discriminate Ho.
  - unfold BaseTask_wait. by rewrite Hf, He.
  - by rewrite (Task_wait_finished _ _ _ _ Hf He).
  - unfold RequestTask_wait, BaseTask_wait. by rewrite Hf, He.
Qed.

End Coverage.

(** * The further properties on the sample objects *)

Module OnMoreSamples.
Import Sample MoreSample.

Lemma listlike_is_objlike_witness :
  _is_listlike (VInst "ServerList" (VList [])) = true
  ∧ _is_objlike (VInst "ServerList" (VList [])) = true.
Proof.
  split; [reflexivity|].
  exact (listlike_is_objlike (VInst "ServerList" (VList [])) eq_refl).
Defined.

Lemma submit_task_raises_work_failure_witness :
  isinstance_exn HttpError RetriableConnectionFailure = false
  ∧ (submit_task obj_to_dict manager (flaky_task HttpError) false s0).1.1
    = Some (Exc HttpError ["main"]).
Proof.
  split; [reflexivity|].
  exact (submit_task_raises_work_failure obj_to_dict manager
           (flaky_task HttpError) false s0 HttpError ["main"]
           (mk_world 1 ∅) eq_refl eq_refl).
Defined.

Lemma submit_task_hides_one_retriable_failure_witness :
  isinstance_exn ConnectFailure RetriableConnectionFailure = true
  ∧ (submit_task obj_to_dict manager (flaky_task ConnectFailure) true s0).1.1
    = Some (Ret (VInt 7)).
Proof.
  split; [reflexivity|].
  exact (submit_task_hides_one_retriable_failure obj_to_dict manager
           (flaky_task ConnectFailure) s0 ConnectFailure ["main"]
           (mk_world 1 ∅) (VInt 7) (mk_world 2 ∅)
           eq_refl eq_refl eq_refl eq_refl eq_refl).
Defined.

Lemma submit_task_raises_second_failure_witness :
  isinstance_exn ConnectFailure RetriableConnectionFailure = true
  ∧ (submit_task obj_to_dict manager doomed_task false s0).1.1
    = Some (Exc ConnectFailure ["main"]).
Proof.
  split; [reflexivity|].
  exact (submit_task_raises_second_failure obj_to_dict manager doomed_task
           false s0 ConnectFailure ["main"] (mk_world 1 ∅)
           ConnectFailure ["main"] (mk_world 2 ∅)
           eq_refl eq_refl eq_refl).
Defined.

Lemma stale_error_masks_later_success_witness :
  t_exception failed.1 = Some HttpError
  ∧ t_result (submit_task obj_to_dict manager failed.1 true failed.2).1.2
    = VInt 7
  ∧ (submit_task obj_to_dict manager failed.1 true failed.2).1.1
    = Some (Exc HttpError ["main"]).
Proof.
  split; [reflexivity|].
  pose proof (stale_error_masks_later_success obj_to_dict manager failed.1
    true failed.2 HttpError (VInt 7) (mk_world 2 ∅)
    eq_refl eq_refl eq_refl) as (H1 & _ & H3).
  exact (conj H1 H3).
Defined.

Example response_subclass_is_decoded :
  let r := run (request_task (Some "servers")
                  (VInst "AuthResponse" (servers_response "servers")))
             cloud s0 in
  t_result r.1 = VList [VStr "a"] ∧ t_exception r.1 = None
  ∧ t_response r.1 = VInst "AuthResponse" (servers_response "servers").
Proof. by vm_compute. Qed.

Lemma submit_task_runs_factory_callable_witness :
  let t := RunTask_init
             (generate_task_class (WCallable "list_items" list_items) None
                wrap) [] in
  (submit_task obj_to_dict manager t false s0).1.1
    = Some (Ret (VTuple [items]))
  ∧ (submit_task obj_to_dict manager t true s0).1.1 = Some (Ret items)
  ∧ st_trace (submit_task obj_to_dict manager t false s0).2
    = [EvManagerRunning "cloud" "list_items"; EvMain "RunTask";
       EvManagerRan "cloud" "list_items"].
Proof.
  intros t.
  pose proof (submit_task_runs_factory_callable obj_to_dict manager
    "list_items" list_items None wrap [] s0 items (st_world s0) eq_refl)
    as (H1 & H2 & H3).
  exact (conj H1 (conj H2 (H3 false))).
Defined.

Lemma submit_function_delegates_to_attached_manager_witness :
  tm_manager outer_over_method_manager = Some method_manager
  ∧ client_attr (tm_client outer_over_method_manager) "list_items" = None
  ∧ (submit_function obj_to_dict outer_over_method_manager
       (WMethodName "list_items") None None [] s0).1.1
    = Some (Ret (VTuple [items]))
  ∧ st_trace (submit_function obj_to_dict outer_over_method_manager
       (WMethodName "list_items") None None [] s0).2
    = [EvManagerRunning "cloud" "list_items"; EvMain "RunTask";
       EvManagerRan "cloud" "list_items"].
Proof.
  split; [reflexivity|]. split; [reflexivity|].
  pose proof (submit_function_delegates_to_attached_manager obj_to_dict
    outer_over_method_manager method_manager (WMethodName "list_items")
    None None [] s0 items (st_world s0) eq_refl eq_refl) as (H1 & _ & H3).
  exact (conj H1 H3).
Defined.

Example false_exception_is_not_raised :
  ended_in_error emptied.1 Empty ["main"]
  ∧ (submit_task obj_to_dict manager empty_task false s0).1.1
    = Some (Ret VNone).
Proof. by vm_compute. Qed.

Lemma RequestTask_keeps_response_witness :
  let r := run (request_task (Some "servers") empty_response) cloud s0 in
  t_exception r.1 = Some (TypeError "string indices must be integers")
  ∧ t_response r.1 = empty_response.
Proof.
  intros r. split; [reflexivity|].
  exact (RequestTask_keeps_response
           (request_task (Some "servers") empty_response) "ServerList"
           (Some "servers") (fun _ _ w => (Ret empty_response, w)) cloud s0
           empty_response (st_world s0) eq_refl eq_refl).
Defined.

Lemma RequestTask_without_result_key_stores_body_witness :
  let self := request_task (Some "") (servers_response "") in
  result_key_set (Some "") = false
  ∧ t_finished (run self cloud s0).1 = true
  ∧ t_result (run self cloud s0).1 = VDict [("", VList [VStr "a"])]
  ∧ t_request_id (run self cloud s0).1 = Some (Some "req-1").
Proof.
  intros self. split; [reflexivity|].
  pose proof (RequestTask_without_result_key_stores_body obj_to_dict self
    "ServerList" (Some "") (fun _ _ w => (Ret (servers_response ""), w))
    cloud s0 (VDict [("", VList [VStr "a"])]) "{}"
    {[ request_id_header := "req-1" ]} (st_world s0)
    eq_refl eq_refl eq_refl) as (H1 & H2 & H3 & _).
  split; [exact H1|]. split; [exact H2|].
  rewrite H3. reflexivity.
Defined.

Lemma RequestTask_run_sets_request_id_witness :
  let self := request_task None empty_response in
  t_exception (run self cloud s0).1 = None
  ∧ is_Some (t_request_id (run self cloud s0).1).
Proof.
  intros self. split; [reflexivity|].
  exact (RequestTask_run_sets_request_id self "ServerList" None
           (fun _ _ w => (Ret empty_response, w)) cloud s0
           eq_refl eq_refl).
Defined.

Lemma RequestTask_narrowing_needs_a_mapping_witness :
  let self := request_task (Some "servers") array_response in
  result_key_set (Some "servers") = true
  ∧ json_non_object (VList [VStr "a"]) = true
  ∧ (∃ msg, ended_in_error (run self cloud s0).1 (TypeError msg) ["done"])
  ∧ t_result (run self cloud s0).1 = VNone.
Proof.
  intros self. split; [reflexivity|]. split; [reflexivity|].
  exact (RequestTask_narrowing_needs_a_mapping self "ServerList"
           (Some "servers") (fun _ _ w => (Ret array_response, w)) cloud s0
           (VList [VStr "a"]) "[]" ∅ (st_world s0)
           eq_refl eq_refl eq_refl eq_refl).
Defined.

Lemma RequestTask_needs_a_response_witness :
  let self := request_task None VNone in
  lacks_json VNone = true
  ∧ ended_in_error (run self cloud s0).1 (AttributeError "json") ["done"]
  ∧ t_response (run self cloud s0).1 = VNone
  ∧ t_result (run self cloud s0).1 = VNone.
Proof.
  intros self. split; [reflexivity|].
  exact (RequestTask_needs_a_response self "ServerList" None
           (fun _ _ w => (Ret VNone, w)) cloud s0 VNone (st_world s0)
           eq_refl eq_refl eq_refl).
Defined.

Lemma wait_raw_returns_stored_result_witness :
  t_finished streamed.1 = true ∧ t_exception streamed.1 = None
  ∧ (wait obj_to_dict streamed.1 true streamed.2).1 = Some (Ret (VGen 0))
  ∧ (wait obj_to_dict streamed.1 true streamed.2).2 = streamed.2.
Proof.
  split; [reflexivity|]. split; [reflexivity|].
  pose proof (wait_raw_returns_stored_result obj_to_dict streamed.1
                streamed.2 eq_refl eq_refl) as (H1 & H2).
  exact (conj H1 (H2 eq_refl)).
Defined.

Example method_name_task_calls_client_method :
  let t := RunTask_init
             (generate_task_class (WMethodName "list_items") None
                _result_filter_cb) [] in
  (submit_task obj_to_dict method_manager t false s0).1.1 = Some (Ret items)
  ∧ (submit_task obj_to_dict manager t false s0).1.1
    = Some (Exc (AttributeError "list_items") ["main"]).
Proof. by vm_compute. Qed.

End OnMoreSamples.
